(** * Learning-Analysis: the project set-up script, and the analysis core
      its specification describes

    The repository holds one program, [Project-setup.py].  It asks where the
    project goes, optionally removes an existing project directory, and then
    writes a fixed tree of directories and files.  The first part of this
    development embeds that script over a model of the file system and of the
    terminal; the modules after it model the Topic Mapper, the Weakness
    Analyzer and the Paper Assembler, which the repository does not contain.
    All definitions come first, the properties follow. *)

From stdpp Require Import gmap strings list fin_maps.
From Stdlib Require Import QArith.

Close Scope Q_scope.

Set Warnings "-register-all".

(** ** Strings

    A string is the sequence of its bytes; the functions below act on the
    ASCII characters and leave the other bytes alone. *)

(** [str.lower()], on the ASCII letters.  The script only compares the result
    with ['y'], and no character other than [Y] and [y] lowers to [y]. *)
Definition lower_ascii (c : Ascii.ascii) : Ascii.ascii :=
  let n := Ascii.nat_of_ascii c in
  if (65 <=? n)%nat && (n <=? 90)%nat then Ascii.ascii_of_nat (n + 32) else c.

Fixpoint lower (s : string) : string :=
  match s with
  | EmptyString => EmptyString
  | String c s' => String (lower_ascii c) (lower s')
  end.

(** The characters [str.strip()] removes, among the ASCII ones. *)
Definition is_space (c : Ascii.ascii) : bool :=
  let n := Ascii.nat_of_ascii c in
  ((9 <=? n)%nat && (n <=? 13)%nat) || ((28 <=? n)%nat && (n <=? 32)%nat).

Fixpoint lstrip (s : string) : string :=
  match s with
  | EmptyString => EmptyString
  | String c s' => if is_space c then lstrip s' else s
  end.

Fixpoint rstrip (s : string) : string :=
  match s with
  | EmptyString => EmptyString
  | String c s' =>
      match rstrip s' with
      | EmptyString => if is_space c then EmptyString else String c EmptyString
      | r => String c r
      end
  end.

Definition strip (s : string) : string := rstrip (lstrip s).

(** ** The file system *)

(** What [json.dump] is given: the values the script serialises. *)
Inductive json :=
| JStr (s : string)
| JBool (b : bool)
| JList (items : list json)
| JObj (members : list (string * json)).

(** What a file holds: text written as it is, or the text [json.dump]
    produces for a value at an indentation. *)
Inductive file_content :=
| Text (s : string)
| JsonDump (value : json) (indent : nat).

Inductive node :=
| Dir
| File (content : file_content).

(** A location is the list of its components below the root; the file system
    maps the locations that exist to what is there.  There are no links. *)
Abbreviation path := (list string).
Abbreviation filesystem := (gmap (list string) node).

Definition parent (p : path) : path := removelast p.

(** A real file system is a tree: the root is a directory, and whatever
    exists lies in a directory. *)
Definition wf_fs (t : filesystem) : Prop :=
  t !! [] = Some Dir ∧
  ∀ p c, is_Some (t !! (p ++ [c])) → t !! p = Some Dir.

Inductive exn :=
| EOFError
| FileExistsError
| FileNotFoundError
| NotADirectoryError
| IsADirectoryError
| CalledProcessError.

(** Whether a file stands in the way on the walk from [done] down [todo]. *)
Fixpoint blocked (t : filesystem) (done todo : path) : bool :=
  match t !! done with
  | Some (File _) => true
  | _ => match todo with
         | [] => false
         | c :: todo' => blocked t (done ++ [c]) todo'
         end
  end.

(** The error of using [p] as a directory when it is not one. *)
Definition path_error (t : filesystem) (p : path) : exn :=
  if blocked t [] p then NotADirectoryError else FileNotFoundError.

(** ** The terminal *)

(** What reaches the terminal: a printed line, literal or an f-string around
    a path, or the prompt of an [input], again literal or around a path. *)
Inductive message :=
| Say (text : string)
| SayPath (before : string) (p : path) (after : string)
| Ask (text : string)
| AskPath (before : string) (p : path) (after : string).

(** ** The process: file system, working directory, and the terminal *)

Record state := State {
  fs : filesystem;
  cwd : path;
  stdin : list string;
  stdout : list message
}.

Definition set_fs (t : filesystem) (st : state) : state :=
  State t (cwd st) (stdin st) (stdout st).

Inductive outcome (A : Type) :=
| Ok (a : A)
| Raise (e : exn).
Arguments Ok {A} a.
Arguments Raise {A} e.

(** A statement runs on a state, and returns or raises; its effects stay
    either way. *)
Definition M (A : Type) : Type := state → outcome A * state.

Definition ret {A} (a : A) : M A := λ st, (Ok a, st).

Definition bind {A B} (m : M A) (k : A → M B) : M B :=
  λ st, match m st with
        | (Ok a, st') => k a st'
        | (Raise e, st') => (Raise e, st')
        end.

(** [try: m  except ...:] with the handler chosen by the exception; [None]
    lets it through. *)
Definition try_except {A} (m : M A) (handler : exn → option (M A)) : M A :=
  λ st, match m st with
        | (Ok a, st') => (Ok a, st')
        | (Raise e, st') =>
            match handler e with
            | Some h => h st'
            | None => (Raise e, st')
            end
        end.

#[global] Instance M_ret : MRet M := @ret.
#[global] Instance M_bind : MBind M := λ A B k m, bind m k.

(** [for x in xs: body] *)
Fixpoint for_each {A} (xs : list A) (body : A → M unit) : M unit :=
  match xs with
  | [] => ret tt
  | x :: xs' => body x ;; for_each xs' body
  end.

(** ** What the script calls *)

(** [Path.cwd()] *)
Definition path_cwd : M path := λ st, (Ok (cwd st), st).

(** [print(...)] *)
Definition print (m : message) : M unit :=
  λ st, (Ok tt, State (fs st) (cwd st) (stdin st) (stdout st ++ [m])).

(** [input(prompt)]: the prompt is written, and a line is read; at the end of
    the input it raises. *)
Definition input (prompt : message) : M string :=
  λ st,
    match stdin st with
    | [] => (Raise EOFError, State (fs st) (cwd st) [] (stdout st ++ [prompt]))
    | line :: rest => (Ok line, State (fs st) (cwd st) rest (stdout st ++ [prompt]))
    end.

(** [p.exists()] *)
Definition path_exists (p : path) : M bool :=
  λ st, (Ok (bool_decide (is_Some (fs st !! p))), st).

(** [os.mkdir(p)]: [p] must not exist, and its parent must be a directory. *)
Definition os_mkdir (p : path) : M unit :=
  λ st,
    match fs st !! p with
    | Some _ => (Raise FileExistsError, st)
    | None =>
        match fs st !! parent p with
        | Some Dir => (Ok tt, set_fs (<[p := Dir]> (fs st)) st)
        | _ => (Raise (path_error (fs st) (parent p)), st)
        end
    end.

(** [p.mkdir(exist_ok=True)]: as [os.mkdir], but a directory already there is
    accepted; a missing parent still raises. *)
Definition mkdir_exist_ok (p : path) : M unit :=
  try_except (os_mkdir p)
    (λ e, match e with
          | FileNotFoundError => None
          | _ => Some (λ st, match fs st !! p with
                             | Some Dir => (Ok tt, st)
                             | _ => (Raise e, st)
                             end)
          end).

(** The walk of [mkdir(parents=True, exist_ok=True)] from a directory [done]
    down the components [todo]: what is missing is created, a directory on
    the way is entered, a file on the way raises. *)
Fixpoint makedirs (t : filesystem) (done todo : path) : outcome filesystem :=
  match todo with
  | [] => Ok t
  | c :: todo' =>
      let d := done ++ [c] in
      match t !! d with
      | None => makedirs (<[d := Dir]> t) d todo'
      | Some Dir => makedirs t d todo'
      | Some (File _) =>
          Raise (match todo' with [] => FileExistsError | _ => NotADirectoryError end)
      end
  end.

(** [Path(rel).mkdir(parents=True, exist_ok=True)] for a path [rel] below
    [start]: the root for an absolute path, the working directory for a
    relative one, which the call itself never creates. *)
Definition mkdir_parents (start rel : path) : M unit :=
  λ st,
    match fs st !! start with
    | Some Dir =>
        match makedirs (fs st) start rel with
        | Ok t => (Ok tt, set_fs t st)
        | Raise e => (Raise e, st)
        end
    | _ => (Raise (path_error (fs st) start), st)
    end.

(** [p.touch()]: what exists is left as it is (only its time changes),
    otherwise an empty file is created in the parent directory. *)
Definition touch (p : path) : M unit :=
  λ st,
    match fs st !! p with
    | Some _ => (Ok tt, st)
    | None =>
        match fs st !! parent p with
        | Some Dir => (Ok tt, set_fs (<[p := File (Text "")]> (fs st)) st)
        | _ => (Raise (path_error (fs st) (parent p)), st)
        end
    end.

(** [with open(p, "w") as f:] followed by the one write of [content]: the
    file is created or replaced. *)
Definition write_file (p : path) (content : file_content) : M unit :=
  λ st,
    match fs st !! p with
    | Some Dir => (Raise IsADirectoryError, st)
    | Some (File _) => (Ok tt, set_fs (<[p := File content]> (fs st)) st)
    | None =>
        match fs st !! parent p with
        | Some Dir => (Ok tt, set_fs (<[p := File content]> (fs st)) st)
        | _ => (Raise (path_error (fs st) (parent p)), st)
        end
    end.

(** What is left of a file system without [p] and everything below it. *)
Definition remove_tree (p : path) (t : filesystem) : filesystem :=
  filter (λ kv, ¬ p `prefix_of` kv.1) t.

(** [shutil.rmtree(p)] *)
Definition rmtree (p : path) : M unit :=
  λ st,
    match fs st !! p with
    | Some Dir => (Ok tt, set_fs (remove_tree p (fs st)) st)
    | Some (File _) => (Raise NotADirectoryError, st)
    | None => (Raise (path_error (fs st) p), st)
    end.

(** [os.chdir(p)] *)
Definition chdir (p : path) : M unit :=
  λ st,
    match fs st !! p with
    | Some Dir => (Ok tt, State (fs st) p (stdin st) (stdout st))
    | _ => (Raise (path_error (fs st) p), st)
    end.

(** The components of a relative path written with [/] (character 47). *)
Fixpoint components_aux (s : string) (cur : string) : list string :=
  match s with
  | EmptyString => [cur]
  | String c s' =>
      if Ascii.eqb c (Ascii.ascii_of_nat 47) then cur :: components_aux s' EmptyString
      else components_aux s' (cur +:+ String c EmptyString)
  end.

Definition components (s : string) : list string := components_aux s EmptyString.

(** [Path(name)] for a relative [name], once the working directory is known. *)
Definition here (name : string) : M path :=
  λ st, (Ok (cwd st ++ components name), st).

(** How [git init] can end: it ran, it ran and failed, or there is no [git]
    to run. *)
Inductive git_outcome :=
| GitInitialized
| GitFailed
| GitMissing.

(** [subprocess.run(["git", "init"], check=True, capture_output=True)] in the
    working directory.  Of the repository only its [.git] directory is
    recorded; a run that fails leaves nothing. *)
Definition git_init (g : git_outcome) : M unit :=
  λ st,
    match g with
    | GitInitialized => (Ok tt, set_fs (<[cwd st ++ [".git"] := Dir]> (fs st)) st)
    | GitFailed => (Raise CalledProcessError, st)
    | GitMissing => (Raise FileNotFoundError, st)
    end.

(** ** The script *)

Definition project_name : string := "igcse-assessment-tool".

Definition gitignore_content : string :=
  "# Python
__pycache__/
*.py[cod]
*$py.class
*.so
.Python
venv/
env/
ENV/

# IDE
.idea/
*.swp
*.swo
.DS_Store

# Project specific
.env
*.log
output/*.pdf
output/*.png
data/real_*  # Real data files

# Jupyter
.ipynb_checkpoints/
*.ipynb_checkpoints

# Testing
.pytest_cache/
.coverage
htmlcov/
.tox/

# Distribution
build/
dist/
*.egg-info/
".

Definition requirements_content : string :=
  "# Core dependencies
pandas>=2.0.0
numpy>=1.24.0
matplotlib>=3.7.0
seaborn>=0.12.0

# CLI and utilities
click>=8.1.0
python-dotenv>=1.0.0

# Testing
pytest>=7.4.0
pytest-cov>=4.1.0

# Documentation
jupyter>=1.0.0
nbconvert>=7.0.0

# PDF generation
reportlab>=4.0.0

# Data validation
pydantic>=2.0.0

# Type checking (optional)
mypy>=1.5.0
".

Definition readme_content : string :=
  "# IGCSE Assessment Tool

A lightweight assessment tool for Cambridge IGCSE teachers to diagnose student weaknesses in multiple-choice tests and automatically generate personalized practice papers.

## Features

- 📊 Multi-stream data integration: Combines MCQ results, assignment marks, and classroom participation
- 🔍 Intelligent weakness detection: Uses item response analysis to identify knowledge gaps  
- 🎯 Topic mapping: Maps weaknesses to Cambridge IGCSE syllabus topics
- 📝 Personalized papers: Automatically assembles custom practice papers from past CIE questions
- 📈 Visual reports: Generates heatmaps and teacher summaries

## Quick Start

```bash
# Create virtual environment
python3 -m venv venv
source venv/bin/activate  # Mac/Linux
# or
venv\Scripts\activate  # Windows

# Install dependencies
pip install -r requirements.txt

# Run example
python src/ingestion.py
```

## Project Structure

```
igcse-assessment-tool/
├── src/               # Source code
├── tests/             # Test files
├── data/              # Sample data
├── output/            # Generated reports
└── demo.ipynb         # Demo notebook
```
".

Definition settings : json :=
  JObj [("python.linting.enabled", JBool true);
 ("python.linting.pylintEnabled", JBool false);
 ("python.linting.flake8Enabled", JBool true);
 ("python.formatting.provider", JStr "black");
 ("python.testing.pytestEnabled", JBool true);
 ("python.testing.unittestEnabled", JBool false);
 ("editor.formatOnSave", JBool true);
 ("files.exclude", JObj [("**/__pycache__", JBool true);
 ("**/*.pyc", JBool true)])].

Definition launch : json :=
  JObj [("version", JStr "0.2.0");
 ("configurations", JList [JObj [("name", JStr "Python: Current File");
 ("type", JStr "python");
 ("request", JStr "launch");
 ("program", JStr "${file}");
 ("console", JStr "integratedTerminal")]; JObj [("name", JStr "Python: Run Tests");
 ("type", JStr "python");
 ("request", JStr "launch");
 ("module", JStr "pytest");
 ("args", JList [JStr "-v"]);
 ("console", JStr "integratedTerminal")]])].

Definition syllabus : json :=
  JObj [("subject", JStr "Mathematics");
 ("code", JStr "0580");
 ("topics", JObj [("1", JObj [("name", JStr "Number");
 ("subtopics", JList [JStr "Integers"; JStr "Fractions"; JStr "Decimals"; JStr "Percentages"])]);
 ("2", JObj [("name", JStr "Algebra & Graphs");
 ("subtopics", JList [JStr "Linear equations"; JStr "Quadratics"; JStr "Inequalities"; JStr "Graphs"])]);
 ("3", JObj [("name", JStr "Coordinate Geometry");
 ("subtopics", JList [JStr "Distance"; JStr "Midpoint"; JStr "Gradient"; JStr "Equations of lines"])]);
 ("4", JObj [("name", JStr "Geometry");
 ("subtopics", JList [JStr "Angles"; JStr "Triangles"; JStr "Quadrilaterals"; JStr "Circles"])])])].

(** [create_gitignore] *)
Definition create_gitignore : M unit :=
  f ← here ".gitignore";
  write_file f (Text gitignore_content);;
  print (Say "✓ Created file: .gitignore").

(** [create_requirements] *)
Definition create_requirements : M unit :=
  f ← here "requirements.txt";
  write_file f (Text requirements_content);;
  print (Say "✓ Created file: requirements.txt").

(** [create_readme] *)
Definition create_readme : M unit :=
  f ← here "README.md";
  write_file f (Text readme_content);;
  print (Say "✓ Created file: README.md").

(** [create_vscode_config] *)
Definition create_vscode_config : M unit :=
  f ← here ".vscode/settings.json";
  write_file f (JsonDump settings 4);;
  print (Say "✓ Created file: .vscode/settings.json");;
  f ← here ".vscode/launch.json";
  write_file f (JsonDump launch 4);;
  print (Say "✓ Created file: .vscode/launch.json").

Definition csv_templates : list (string * string) :=
  [ ("data/sample_mcq_results.csv", "student_id,q1,q2,q3,q4,q5,total_score
");
    ("data/sample_assignments.csv", "student_id,assignment_1,assignment_2,assignment_3,total
");
    ("data/sample_participation.csv", "student_id,week_1,week_2,week_3,week_4,average
") ].

(** [create_sample_data_structure] *)
Definition create_sample_data_structure : M unit :=
  f ← here "data/syllabus_topics.json";
  write_file f (JsonDump syllabus 4);;
  print (Say "✓ Created file: data/syllabus_topics.json");;
  for_each csv_templates (λ '(filepath, content),
    f ← here filepath;
    write_file f (Text content);;
    print (Say ("✓ Created file: " +:+ filepath))).

Definition directories : list string :=
  [ "src"; "tests"; "data"; "output/student_reports"; ".vscode" ].

Definition init_files : list string := [ "src/__init__.py"; "tests/__init__.py" ].

(** Lines 75-82: the repository is initialised, and a failure of [git] is
    caught and reported. *)
Definition initialize_git (g : git_outcome) : M unit :=
  try_except
    (git_init g;; print (Say "✓ Initialized Git repository"))
    (λ e, match e with
          | CalledProcessError =>
              Some (print (Say "⚠️  Git initialization failed, please ensure Git is installed"))
          | FileNotFoundError =>
              Some (print (Say "⚠️  Git command not found, please install Git first"))
          | _ => None
          end).

(** Lines 56-97, run inside the project directory. *)
Definition populate (g : git_outcome) : M unit :=
  for_each directories (λ dir_path,
    c ← path_cwd;
    mkdir_parents c (components dir_path);;
    print (Say ("✓ Created directory: " +:+ dir_path)));;
  for_each init_files (λ init_file,
    f ← here init_file;
    touch f;;
    print (Say ("✓ Created file: " +:+ init_file)));;
  initialize_git g;;
  create_gitignore;;
  create_requirements;;
  create_readme;;
  create_vscode_config;;
  create_sample_data_structure.

(** Lines 49-106: the project directory is made and entered, filled, and the
    next steps are printed. *)
Definition build (project_dir : path) (g : git_outcome) : M unit :=
  print (SayPath "
Creating project directory: " project_dir "");;
  mkdir_exist_ok project_dir;;
  chdir project_dir;;
  print (SayPath "Changed to: " project_dir "");;
  populate g;;
  print (Say "
✅ Project structure created successfully!");;
  print (SayPath "Project location: " project_dir "");;
  print (Say "
Next steps:");;
  print (Say "1. Open project in VS Code: code .");;
  print (Say "2. Create virtual environment: python3 -m venv venv");;
  print (Say "3. Activate virtual environment: source venv/bin/activate  (Mac/Linux)");;
  print (Say "                              or: venv\Scripts\activate  (Windows)");;
  print (Say "4. Install dependencies: pip install -r requirements.txt").

Section Script.

(** The location [Path(text).expanduser()] denotes for a process in the
    working directory given first: the home directory and the reading of
    the text belong to the platform. *)
Variable user_path : path → string → path.

(** Lines 17-37: where the project goes. *)
Definition locate_project : M path :=
  current_dir ← path_cwd;
  print (SayPath "Current directory: " current_dir "");;
  response ← input (Ask "
Create project 'igcse-assessment-tool' in current directory? (y/n): ");
  let response := lower response in
  base_dir ←
    (if bool_decide (response ≠ "y") then
       custom_path ← input (Ask "Enter project path (e.g., ~/Desktop/): ");
       let custom_path := strip custom_path in
       if bool_decide (custom_path ≠ "") then
         let base_dir := user_path current_dir custom_path in
         e ← path_exists base_dir;
         (if negb e then
            print (SayPath "Path " base_dir " doesn't exist, creating...");;
            mkdir_parents [] base_dir
          else ret tt);;
         ret base_dir
       else ret current_dir
     else ret current_dir);
  ret (base_dir ++ [project_name]).

(** [create_project_structure] *)
Definition create_project_structure (g : git_outcome) : M unit :=
  project_dir ← locate_project;
  e ← path_exists project_dir;
  if e : bool then
    response ← input (AskPath "
Directory " project_dir " already exists. Overwrite? (y/n): ");
    let response := lower response in
    if bool_decide (response ≠ "y") then
      print (Say "Project creation cancelled.")
    else
      rmtree project_dir;;
      build project_dir g
  else
    build project_dir g.

End Script.

(** ** Trees below a directory *)

(** [graft p sub t] is [t] with everything at and below [p] replaced by the
    tree [sub], whose root stands for [p]. *)
Definition graft (p : path) (sub t : filesystem) : filesystem :=
  kmap (p ++.) sub ∪ remove_tree p t.

(** A process at the root of the tree below [p], seen in the whole file
    system [t0] around it: [out0] was printed before, and [in0] is what is
    left to read, which commands that ask nothing leave alone. *)
Definition lift (p : path) (t0 : filesystem) (in0 : list string)
    (out0 : list message) (s : state) : state :=
  State (graft p (fs s) t0) (p ++ cwd s) in0 (out0 ++ stdout s).

(** [m'] does on the whole what [m] does on the part, when [m] returns; the
    values returned are related by [R]. *)
Definition relocates (p : path) (t0 : filesystem) (in0 : list string)
    (out0 : list message) {A} (R : A → A → Prop) (m m' : M A) : Prop :=
  ∀ s a s', m s = (Ok a, s') →
    ∃ a', m' (lift p t0 in0 out0 s) = (Ok a', lift p t0 in0 out0 s') ∧ R a a'.

Definition moved (p : path) (a a' : path) : Prop := a' = p ++ a.

(** The run of [populate] in an empty directory gives the tree the script
    leaves in the project directory, and what it prints while filling it. *)
Definition empty_dir : state := State {[ [] := Dir ]} [] [] [].

Definition populated (g : git_outcome) : state := snd (populate g empty_dir).

Definition scaffold (g : git_outcome) : filesystem := fs (populated g).

Definition transcript (g : git_outcome) : list message := stdout (populated g).

Definition is_dir (o : option node) : bool :=
  match o with
  | Some Dir => true
  | _ => false
  end.

(** A check of [wf_fs] that runs. *)
Definition wf_fsb (t : filesystem) : bool :=
  is_dir (t !! []) &&
  forallb (λ kv, match kv.1 with
                 | [] => true
                 | _ => is_dir (t !! parent kv.1)
                 end) (map_to_list t).

(** What the script reports about [git init]. *)
Definition git_report (g : git_outcome) : message :=
  match g with
  | GitInitialized => Say "✓ Initialized Git repository"
  | GitFailed => Say "⚠️  Git initialization failed, please ensure Git is installed"
  | GitMissing => Say "⚠️  Git command not found, please install Git first"
  end.

(** The files written after [git init], lines 84-97, with what they hold. *)
Definition files_after_git : list (string * file_content) :=
  [ (".gitignore", Text gitignore_content);
    ("requirements.txt", Text requirements_content);
    ("README.md", Text readme_content);
    (".vscode/settings.json", JsonDump settings 4);
    (".vscode/launch.json", JsonDump launch 4);
    ("data/syllabus_topics.json", JsonDump syllabus 4) ]
  ++ map (λ '(name, text), (name, Text text)) csv_templates.

(** States to run the script on: a home directory without the project, and
    one where the project directory exists and holds a file of the user's. *)
Definition home_fs : filesystem := <[ ["home"] := Dir ]> {[ [] := Dir ]}.

Definition used_fs : filesystem :=
  <[ ["home"; project_name; "notes.txt"] := File (Text "keep") ]>
    (<[ ["home"; project_name] := Dir ]> home_fs).

Definition at_home (t : filesystem) (answers : list string) : state :=
  State t ["home"] answers [].

(** A platform on which every path typed by the user denotes the working
    directory. *)
Definition no_expansion (c : path) (text : string) : path := c.

(** * The analysis core of the specification

    The repository has no Topic Mapper, Weakness Analyzer or Paper
    Assembler: the specification designs them.  They are modelled here from
    its sections 3, 4 and 7. *)

Abbreviation question_id := string.
Abbreviation topic_id := string.

(** Modelled from the spec: the error kinds of section 7, which no source
    file declares. *)
Inductive analysis_error :=
| UnmappedQuestionError
| InvalidWeightConfig
| InsufficientQuestionsError
| MissingStudentDataError.

Inductive result (A : Type) :=
| Done (a : A)
| Fail (e : analysis_error).
Arguments Done {A} a.
Arguments Fail {A} e.

Module TopicMapper.

(** Modelled from the spec: the Topic Mapper of section 4.1, absent from
    the repository.  [map(question_id) -> set of topic_id] reads the
    question-to-topic table ([QuestionTag] of section 3) and fails with
    [UnmappedQuestionError] if the table has no entry for the question. *)
Definition map (tags : gmap question_id (gset topic_id)) (q : question_id)
    : result (gset topic_id) :=
  match tags !! q with
  | Some topics => Done topics
  | None => Fail UnmappedQuestionError
  end.

End TopicMapper.

Module WeaknessAnalyzer.

(** Modelled from the spec: [StudentRecord] of section 3. *)
Record StudentRecord := {
  student_id : string;
  mcq : gmap question_id Q;
  assignments : list Q;
  participation : list Q
}.

(** Modelled from the spec: [MasteryScore] as the tagged variant of
    section 9. *)
Inductive MasteryScore :=
| Known (score : Q)
| Indeterminate.

(** Modelled from the spec: the configuration of section 4.2, three
    weights and the weakness threshold. *)
Record Config := {
  w_mcq : Q;
  w_assignment : Q;
  w_participation : Q;
  threshold : Q
}.

(** Modelled from the spec: the default weights and threshold section 4.2
    proposes. *)
Definition default_config : Config :=
  {| w_mcq := 6 # 10; w_assignment := 3 # 10; w_participation := 1 # 10;
     threshold := 1 # 2 |}.

(** Modelled from the spec: the weights must sum to one. *)
Definition weights_valid (cfg : Config) : bool :=
  Qeq_bool (w_mcq cfg + w_assignment cfg + w_participation cfg)%Q 1%Q.

(** Modelled from the spec: whether the topic map tags a question with a
    topic; a question without an entry is skipped, the policy section 7
    recommends for [UnmappedQuestionError]. *)
Definition maps_to (topic_map : gmap question_id (gset topic_id))
    (t : topic_id) (q : question_id) : bool :=
  match TopicMapper.map topic_map q with
  | Done topics => bool_decide (t ∈ topics)
  | Fail _ => false
  end.

(** Modelled from the spec: the questions of a student's record that are
    mapped to a topic. *)
Definition mapped_questions (r : StudentRecord)
    (topic_map : gmap question_id (gset topic_id)) (t : topic_id)
    : list question_id :=
  filter (λ q, maps_to topic_map t q) (map_to_list (mcq r)).*1.

Section Analyze.

(** The weighted score of a topic over its mapped questions.  The
    specification names the three weights but no formula (section 9
    leaves it open), so the analysis is stated for any. *)
Variable aggregate : Config → StudentRecord → topic_id → list question_id → Q.

(** Modelled from the spec: the mastery of one topic, section 4.2: a
    topic with no mapped question is [Indeterminate]. *)
Definition mastery (cfg : Config) (r : StudentRecord)
    (topic_map : gmap question_id (gset topic_id)) (t : topic_id)
    : MasteryScore :=
  match mapped_questions r topic_map t with
  | [] => Indeterminate
  | qs => Known (aggregate cfg r t qs)
  end.

(** Modelled from the spec: [analyze(StudentRecord, topic_map, syllabus)
    -> mapping topic_id -> MasteryScore] of section 4.2, which rejects
    weights that do not sum to one.  Of a syllabus topic only its
    identifier matters here. *)
Definition analyze (cfg : Config) (r : StudentRecord)
    (topic_map : gmap question_id (gset topic_id))
    (syllabus : gset topic_id) : result (gmap topic_id MasteryScore) :=
  if weights_valid cfg then
    Done (set_to_map (λ t, (t, mastery cfg r topic_map t)) syllabus)
  else Fail InvalidWeightConfig.

End Analyze.

(** Modelled from the spec: a topic is weak when its score falls below the
    threshold, which is exclusive (section 4.2 and the glossary). *)
Definition is_weak (thr : Q) (m : MasteryScore) : bool :=
  match m with
  | Known s => negb (Qle_bool thr s)
  | Indeterminate => false
  end.

(** Modelled from the spec: the topics flagged as weak among the scores of
    an analysis (section 2, component 3). *)
Definition weak_topics (thr : Q) (scores : gmap topic_id MasteryScore)
    : gset topic_id :=
  dom (filter (λ kv, is_weak thr kv.2 = true) scores).

End WeaknessAnalyzer.

Module PaperAssembler.

(** Modelled from the spec: [PracticePaper] of section 3. *)
Record PracticePaper := {
  paper_student : string;
  paper_questions : list question_id;
  paper_coverage : gset topic_id
}.

(** Modelled from the spec: the bank of tagged past questions, in the
    order the bank gives them. *)
Abbreviation question_bank := (list (question_id * gset topic_id)).

(** Modelled from the spec: the questions of the bank tagged with a
    topic. *)
Definition tagged (bank : question_bank) (t : topic_id) : list question_id :=
  (filter (λ q, t ∈ q.2) bank).*1.

(** Modelled from the spec: the questions of a topic, those not used for
    the student in a prior run first. *)
Definition ranked (bank : question_bank) (history : gset question_id)
    (t : topic_id) : list question_id :=
  filter (λ q, q ∉ history) (tagged bank t) ++
  filter (λ q, q ∈ history) (tagged bank t).

(** Modelled from the spec: the selection policy of section 4.3: the weak
    topics in their order, one representative for each topic that has none
    yet, until [max_questions] is reached. *)
Fixpoint select (bank : question_bank) (history : gset question_id)
    (max_questions : nat) (weak_topics : list topic_id)
    (chosen : list question_id) : list question_id :=
  match weak_topics with
  | [] => chosen
  | t :: rest =>
      if bool_decide (max_questions ≤ length chosen) then chosen
      else if bool_decide (Exists (λ q, q ∈ chosen) (tagged bank t)) then
        select bank history max_questions rest chosen
      else
        match ranked bank history t with
        | [] => select bank history max_questions rest chosen
        | q :: _ => select bank history max_questions rest (chosen ++ [q])
        end
  end.

(** Modelled from the spec: [assemble(student_id, weak_topics,
    question_bank, max_questions) -> PracticePaper] of section 4.3, with
    the usage history it consults.  It fails with
    [InsufficientQuestionsError] if the bank cannot supply questions for a
    weak topic. *)
Definition assemble (student : string) (weak_topics : list topic_id)
    (bank : question_bank) (history : gset question_id)
    (max_questions : nat) : result PracticePaper :=
  if bool_decide (Exists (λ t, tagged bank t = []) weak_topics) then
    Fail InsufficientQuestionsError
  else
    Done {| paper_student := student;
            paper_questions := select bank history max_questions weak_topics [];
            paper_coverage := list_to_set weak_topics |}.

End PaperAssembler.

(** The scenario of section 8: three questions answered, two topics tagged,
    and a third topic in the syllabus that no question is mapped to. *)
Definition sample_record : WeaknessAnalyzer.StudentRecord :=
  {| WeaknessAnalyzer.student_id := "s1";
     WeaknessAnalyzer.mcq := <[ "q1" := 1%Q ]> (<[ "q2" := 0%Q ]> {[ "q3" := 1%Q ]});
     WeaknessAnalyzer.assignments := [];
     WeaknessAnalyzer.participation := [] |}.

Definition sample_topic_map : gmap question_id (gset topic_id) :=
  <[ "q1" := {[ "T1" ]} ]> (<[ "q2" := {[ "T1" ]} ]> {[ "q3" := {[ "T2" ]} ]}).

Definition sample_syllabus : gset topic_id := {[ "T1"; "T2"; "T3" ]}.

(** The MCQ-only weighting of that scenario: the mean correctness of the
    mapped questions. *)
Definition mcq_mean (cfg : WeaknessAnalyzer.Config)
    (r : WeaknessAnalyzer.StudentRecord) (t : topic_id)
    (qs : list question_id) : Q :=
  (foldr (λ q acc, (default 0 (WeaknessAnalyzer.mcq r !! q) + acc)%Q) 0%Q qs
   / inject_Z (Z.of_nat (length qs)))%Q.

Definition sample_bank : PaperAssembler.question_bank :=
  [ ("past-1", {[ "T2" ]}); ("past-2", {[ "T2"; "T4" ]}) ].

(** ** What a run leaves alone *)

(** A process inside the directory [p] of a file system that, outside [p],
    is as [t0] is. *)
Definition frame (p : path) (t0 : filesystem) (s : state) : Prop :=
  cwd s = p ∧ ∀ k, ¬ p `prefix_of` k → fs s !! k = t0 !! k.

(** However [m] ends, it stays inside [p] and leaves the outside alone; what
    it returns satisfies [R]. *)
Definition confined (p : path) (t0 : filesystem) {A} (R : A → Prop)
    (m : M A) : Prop :=
  ∀ s r s', frame p t0 s → m s = (r, s') →
    frame p t0 s' ∧ ∀ a, r = Ok a → R a.

(** The entries of a project directory after the script: the directory
    itself, the directories of [directories] with the [output] directory on
    the way, the placeholder files, the repository when there is one, and
    the files written after the [git] step. *)
Definition project_entries (g : git_outcome) : list path :=
  [[]; ["output"]] ++ map components directories ++ map components init_files
  ++ (match g with GitInitialized => [[".git"]] | _ => [] end)
  ++ map (λ f, components f.1) files_after_git.

(** A home directory in which the project name is taken by a file. *)
Definition file_fs : filesystem :=
  <[ ["home"; project_name] := File (Text "not a directory") ]> home_fs.

(** A platform on which whatever the user types denotes the location
    [b]. *)
Definition chosen (b : path) (c : path) (text : string) : path := b.

(** Whether a string has nothing but ASCII white space. *)
Fixpoint blank (s : string) : bool :=
  match s with
  | EmptyString => true
  | String c s' => is_space c && blank s'
  end.


(** A home directory with a [data] directory that holds an older file of
    marks, and one with a [.vscode] directory that holds older settings. *)
Definition data_fs : filesystem :=
  <[ ["home"; "data"; "sample_assignments.csv"] := File (Text "old marks") ]>
    (<[ ["home"; "data"] := Dir ]> home_fs).

Definition editor_fs : filesystem :=
  <[ ["home"; ".vscode"; "settings.json"] := File (Text "{}") ]>
    (<[ ["home"; ".vscode"] := Dir ]> home_fs).

(** * Properties of the set-up script *)

(** ** Trees below a directory *)

Lemma remove_tree_lookup_under (p q : path) (t : filesystem) :
  remove_tree p t !! (p ++ q) = None.
Proof.
  apply map_lookup_filter_None. right. intros x _ Hn. apply Hn.
  by apply prefix_app_r.
Qed.

Lemma remove_tree_lookup_root (p : path) (t : filesystem) :
  remove_tree p t !! p = None.
Proof.
  pose proof (remove_tree_lookup_under p [] t) as H. by rewrite app_nil_r in H.
Qed.

Lemma remove_tree_lookup_outside (p k : path) (t : filesystem) :
  ¬ p `prefix_of` k → remove_tree p t !! k = t !! k.
Proof.
  intros Hk. destruct (t !! k) as [x|] eqn:E.
  - by apply map_lookup_filter_Some.
  - apply map_lookup_filter_None. by left.
Qed.

Lemma graft_lookup_under (p q : path) (sub t : filesystem) :
  graft p sub t !! (p ++ q) = sub !! q.
Proof.
  unfold graft. rewrite lookup_union_l by apply remove_tree_lookup_under.
  apply (lookup_kmap (p ++.)).
Qed.

Lemma graft_lookup_root (p : path) (sub t : filesystem) :
  graft p sub t !! p = sub !! [].
Proof. rewrite <- (graft_lookup_under p [] sub t). by rewrite app_nil_r. Qed.

Lemma graft_lookup_outside (p k : path) (sub t : filesystem) :
  ¬ p `prefix_of` k → graft p sub t !! k = t !! k.
Proof.
  intros Hk. unfold graft. rewrite lookup_union_r.
  - by apply remove_tree_lookup_outside.
  - apply lookup_kmap_None; [apply _|]. intros q ->. destruct Hk.
    by apply prefix_app_r.
Qed.

Lemma graft_insert (p q : path) (v : node) (sub t : filesystem) :
  <[p ++ q := v]> (graft p sub t) = graft p (<[q := v]> sub) t.
Proof.
  unfold graft. rewrite insert_union_l. f_equal.
  symmetry. apply (kmap_insert (p ++.)).
Qed.

Lemma graft_empty_dir (p : path) (t : filesystem) :
  <[p := Dir]> (remove_tree p t) = graft p {[ [] := Dir ]} t.
Proof.
  unfold graft. rewrite (kmap_singleton (p ++.)), app_nil_r.
  apply insert_union_singleton_l.
Qed.

Lemma parent_app (p q : path) : q ≠ [] → parent (p ++ q) = p ++ parent q.
Proof. intros Hq. unfold parent. by apply removelast_app. Qed.

Lemma graft_lookup_parent (p q : path) (sub t : filesystem) :
  sub !! q = None → sub !! parent q = Some Dir →
  graft p sub t !! parent (p ++ q) = Some Dir.
Proof.
  intros Hq Hp. destruct q as [|c q].
  - simpl in Hp. congruence.
  - rewrite parent_app by done. by rewrite graft_lookup_under.
Qed.

(** ** Running a command inside a directory

    The script fills the project from inside it, with relative names.  Such
    a command does below a directory [p] of any file system what it does at
    the root of the tree found there. *)
Section Relocation.

Variable p : path.
Variable t0 : filesystem.
Variable in0 : list string.
Variable out0 : list message.

#[local] Abbreviation lift := (lift p t0 in0 out0).
#[local] Abbreviation relocates := (relocates p t0 in0 out0).
#[local] Abbreviation moved := (moved p).

Lemma relocates_ret {A} (R : A → A → Prop) a a' :
  R a a' → relocates R (mret a) (mret a').
Proof. intros HR s b s' [= <- <-]. by exists a'. Qed.

Lemma relocates_bind {A B} (RA : A → A → Prop) (RB : B → B → Prop)
    (m m' : M A) (k k' : A → M B) :
  relocates RA m m' →
  (∀ a a', RA a a' → relocates RB (k a) (k' a')) →
  relocates RB (m ≫= k) (m' ≫= k').
Proof.
  intros Hm Hk s b s' Hrun. unfold mbind, M_bind, bind in *.
  destruct (m s) as [[a|e] s1] eqn:E; [|done].
  destruct (Hm _ _ _ E) as (a' & -> & Ha). by apply (Hk a a').
Qed.

Lemma relocates_print msg : relocates eq (print msg) (print msg).
Proof.
  intros s [] s' [= <-]. exists tt. split; [|done].
  unfold print, lift; simpl. by rewrite app_assoc.
Qed.

Lemma relocates_path_cwd : relocates moved path_cwd path_cwd.
Proof. intros s a s' [= <- <-]. by eexists. Qed.

Lemma relocates_here name : relocates moved (here name) (here name).
Proof.
  intros s a s' [= <- <-]. eexists. split; [done|].
  unfold moved; simpl. by rewrite app_assoc.
Qed.

Lemma makedirs_graft (sub sub' : filesystem) (done todo : path) :
  makedirs sub done todo = Ok sub' →
  makedirs (graft p sub t0) (p ++ done) todo = Ok (graft p sub' t0).
Proof.
  revert sub done. induction todo as [|c todo IH]; intros sub done; simpl.
  - by intros [= ->].
  - rewrite <- app_assoc, graft_lookup_under.
    destruct (sub !! (done ++ [c])) as [[|?]|]; [by apply IH|done|].
    intros H. rewrite graft_insert. by apply IH.
Qed.

Lemma relocates_mkdir_parents c c' rel :
  moved c c' → relocates eq (mkdir_parents c rel) (mkdir_parents c' rel).
Proof.
  intros -> s [] s'. unfold mkdir_parents; simpl.
  rewrite graft_lookup_under.
  destruct (fs s !! c) as [[|?]|]; [|done..].
  destruct (makedirs (fs s) c rel) as [t|] eqn:E; [|done].
  intros [= <-]. rewrite (makedirs_graft _ _ _ _ E). by exists tt.
Qed.

Lemma relocates_touch f f' : moved f f' → relocates eq (touch f) (touch f').
Proof.
  intros -> s [] s'. unfold touch; simpl. rewrite graft_lookup_under.
  destruct (fs s !! f) eqn:Ef; [intros [= <-]; by exists tt|].
  destruct (fs s !! parent f) as [[|?]|] eqn:Ep; [|done..].
  intros [= <-]. rewrite (graft_lookup_parent _ _ _ _ Ef Ep).
  exists tt. split; [|done]. unfold set_fs, lift; simpl.
  by rewrite graft_insert.
Qed.

Lemma relocates_write_file f f' content :
  moved f f' → relocates eq (write_file f content) (write_file f' content).
Proof.
  intros -> s [] s'. unfold write_file; simpl. rewrite graft_lookup_under.
  destruct (fs s !! f) as [[|?]|] eqn:Ef; [done| |].
  - intros [= <-]. exists tt. split; [|done]. unfold set_fs, lift; simpl.
    by rewrite graft_insert.
  - destruct (fs s !! parent f) as [[|?]|] eqn:Ep; [|done..].
    intros [= <-]. rewrite (graft_lookup_parent _ _ _ _ Ef Ep).
    exists tt. split; [|done]. unfold set_fs, lift; simpl.
    by rewrite graft_insert.
Qed.

Lemma relocates_for_each {A} (xs : list A) (body body' : A → M unit) :
  (∀ x, relocates eq (body x) (body' x)) →
  relocates eq (for_each xs body) (for_each xs body').
Proof.
  intros Hb. induction xs as [|x xs IH]; simpl.
  - by apply relocates_ret.
  - eapply relocates_bind; [apply Hb|]. by intros.
Qed.

Lemma relocates_initialize_git g :
  relocates eq (initialize_git g) (initialize_git g).
Proof.
  intros s [] s'. destruct g; unfold initialize_git, try_except; simpl.
  - intros [= <-]. exists tt. split; [|done]. unfold set_fs, lift; simpl.
    by rewrite <- !app_assoc, graft_insert.
  - intros [= <-]. exists tt. split; [|done]. unfold lift; simpl.
    by rewrite app_assoc.
  - intros [= <-]. exists tt. split; [|done]. unfold lift; simpl.
    by rewrite app_assoc.
Qed.

Create HintDb relocate discriminated.
#[local] Hint Resolve relocates_print relocates_path_cwd relocates_here
  relocates_mkdir_parents relocates_touch relocates_write_file
  relocates_initialize_git : relocate.

Ltac relocate :=
  repeat first
    [ apply relocates_for_each; intros
    | eapply relocates_bind; [|intros]
    | solve [eauto with relocate]
    | match goal with |- relocates _ (let '(_, _) := ?x in _) _ => destruct x end ].

Lemma relocates_populate g : relocates eq (populate g) (populate g).
Proof.
  unfold populate, create_gitignore, create_requirements, create_readme,
    create_vscode_config, create_sample_data_structure.
  relocate.
Qed.

End Relocation.

(** ** Well-formed file systems *)

Lemma wf_absent_below (t : filesystem) (p q : path) :
  wf_fs t → t !! p = None → t !! (p ++ q) = None.
Proof.
  intros [_ Hwf] Hp. induction q as [|c q IH] using rev_ind.
  - by rewrite app_nil_r.
  - destruct (t !! (p ++ q ++ [c])) as [x|] eqn:E; [|done].
    rewrite app_assoc in E. rewrite (Hwf (p ++ q) c) in IH by eauto. done.
Qed.

Lemma remove_tree_absent (t : filesystem) (p : path) :
  wf_fs t → t !! p = None → remove_tree p t = t.
Proof.
  intros Hwf Hp. apply map_eq. intros k.
  destruct (decide (p `prefix_of` k)) as [[q ->]|Hk].
  - by rewrite remove_tree_lookup_under, wf_absent_below.
  - by apply remove_tree_lookup_outside.
Qed.

Lemma wf_insert_dir (t : filesystem) (p : path) (c : string) :
  wf_fs t → t !! p = Some Dir → wf_fs (<[p ++ [c] := Dir]> t).
Proof.
  intros [Hroot Hwf] Hp. split.
  - rewrite lookup_insert_ne; [done|]. by destruct p.
  - intros q c'. destruct (decide (p ++ [c] = q ++ [c'])) as [E|E].
    + apply app_inj_tail in E as [<- <-]. intros _.
      rewrite lookup_insert_ne; [done|].
      intros E. apply (f_equal length) in E. rewrite length_app in E.
      simpl in E. lia.
    + rewrite lookup_insert_ne by done. intros H%Hwf.
      destruct (decide (p ++ [c] = q)) as [<-|]; [by rewrite lookup_insert_eq|].
      by rewrite lookup_insert_ne.
Qed.

Lemma makedirs_wf (t t' : filesystem) (done todo : path) :
  wf_fs t → t !! done = Some Dir → makedirs t done todo = Ok t' → wf_fs t'.
Proof.
  revert t done. induction todo as [|c todo IH]; intros t done Hwf Hd; simpl.
  - by intros [= <-].
  - destruct (t !! (done ++ [c])) as [[|?]|] eqn:E; [by eapply IH|done|].
    apply IH; [by apply wf_insert_dir|by rewrite lookup_insert_eq].
Qed.

(** ** Running the commands *)

Lemma bind_run {A B} (m : M A) (k : A → M B) s a s1 :
  m s = (Ok a, s1) → (m ≫= k) s = k a s1.
Proof. intros H. unfold mbind, M_bind, bind. by rewrite H. Qed.

Lemma print_run (m : message) t c i o :
  print m (State t c i o) = (Ok tt, State t c i (o ++ [m])).
Proof. reflexivity. Qed.

Lemma mkdir_exist_ok_fresh (p : path) (s : state) :
  fs s !! p = None → fs s !! parent p = Some Dir →
  mkdir_exist_ok p s = (Ok tt, set_fs (<[p := Dir]> (fs s)) s).
Proof.
  intros Hp Hpar. unfold mkdir_exist_ok, try_except, os_mkdir.
  by rewrite Hp, Hpar.
Qed.

Lemma chdir_dir (p : path) (s : state) :
  fs s !! p = Some Dir →
  chdir p s = (Ok tt, State (fs s) p (stdin s) (stdout s)).
Proof. intros Hp. unfold chdir. by rewrite Hp. Qed.

Lemma populate_empty_dir (g : git_outcome) :
  populate g empty_dir = (Ok tt, populated g).
Proof.
  unfold populated. rewrite (surjective_pairing (populate g empty_dir)) at 1.
  f_equal. destruct g; vm_compute; reflexivity.
Qed.

Lemma populated_cwd (g : git_outcome) : cwd (populated g) = [].
Proof. destruct g; vm_compute; reflexivity. Qed.

(** ** The project directory is built *)

Lemma build_run (t : filesystem) (base : path) (g : git_outcome) (s : state) :
  let p := base ++ [project_name] in
  fs s = remove_tree p t → t !! base = Some Dir →
  ∃ out,
    build p g s = (Ok tt, State (graft p (scaffold g) t) p (stdin s) (stdout s ++ out))
    ∧ ∀ m, m ∈ transcript g → m ∈ out.
Proof.
  intros p Hfs Hbase. unfold build. destruct s as [t1 c1 i1 o1]; simpl in *.
  erewrite bind_run by apply print_run.
  erewrite bind_run; cycle 1.
  { apply mkdir_exist_ok_fresh; simpl; rewrite Hfs.
    - apply remove_tree_lookup_root.
    - unfold parent, p. rewrite removelast_last.
      rewrite remove_tree_lookup_outside; [done|apply prefix_snoc_not]. }
  erewrite bind_run; cycle 1.
  { apply chdir_dir. simpl. apply lookup_insert_eq. }
  erewrite bind_run by apply print_run. unfold set_fs; simpl.
  rewrite Hfs, graft_empty_dir.
  pose proof (relocates_populate p t i1
    (o1 ++ [SayPath "
Creating project directory: " p ""; SayPath "Changed to: " p ""]) g
    _ _ _ (populate_empty_dir g)) as (u & Hrun & _).
  unfold lift in Hrun. rewrite populated_cwd in Hrun.
  change (fs (populated g)) with (scaffold g) in Hrun.
  change (stdout (populated g)) with (transcript g) in Hrun.
  change (fs empty_dir) with ({[ [] := Dir ]} : filesystem) in Hrun.
  change (cwd empty_dir) with ([] : path) in Hrun.
  change (stdout empty_dir) with ([] : list message) in Hrun.
  rewrite !app_nil_r in Hrun.
  set (sc := scaffold g) in *. set (tr := transcript g) in *.
  clearbody sc tr. destruct u.
  rewrite <- !app_assoc in Hrun. rewrite <- !app_assoc.
  erewrite bind_run by apply Hrun.
  repeat (erewrite bind_run by apply print_run). rewrite print_run.
  rewrite <- !app_assoc. simpl.
  eexists. split; [reflexivity|].
  intros m Hm. rewrite !elem_of_cons, elem_of_app. auto.
Qed.

Lemma wf_fsb_correct (t : filesystem) : wf_fsb t = true → wf_fs t.
Proof.
  unfold wf_fsb. intros [Hroot Hall]%andb_prop. split.
  - by destruct (t !! []) as [[|?]|].
  - intros q c [x Hx]. rewrite forallb_forall in Hall.
    specialize (Hall (q ++ [c], x)). simpl in Hall.
    unfold parent in Hall. rewrite removelast_last in Hall.
    destruct (q ++ [c]) eqn:E; [by destruct q|]. rewrite <- E in *.
    destruct (t !! q) as [[|?]|]; [done|..];
      (discriminate Hall; apply list_elem_of_In, elem_of_map_to_list, Hx).
Qed.

Lemma input_run (m : message) t c line rest o :
  input m (State t c (line :: rest) o) = (Ok line, State t c rest (o ++ [m])).
Proof. reflexivity. Qed.

Section ScriptProperties.

Variable user_path : path → string → path.

(** The default location: the answer is [y], in either case. *)
Lemma locate_project_default (st : state) (r : string) (rest : list string) :
  stdin st = r :: rest → lower r = "y" →
  ∃ out,
    locate_project user_path st
    = (Ok (cwd st ++ [project_name]), State (fs st) (cwd st) rest (stdout st ++ out)).
Proof.
  destruct st as [t c i o]; simpl. intros -> Hr. unfold locate_project.
  erewrite bind_run by reflexivity.
  erewrite bind_run by apply print_run.
  erewrite bind_run by apply input_run.
  rewrite Hr. rewrite bool_decide_eq_false_2 by (by intros H).
  erewrite bind_run by reflexivity. unfold mret, M_ret, ret.
  rewrite <- app_assoc. by eexists.
Qed.

(** Wherever the project goes, the working directory stays, the target is
    the project name below a base directory, and the file system is as it
    was unless a missing base directory was created. *)
Lemma locate_project_inv (st st1 : state) (p : path) :
  locate_project user_path st = (Ok p, st1) →
  cwd st1 = cwd st ∧
  ∃ base, p = base ++ [project_name] ∧
    (fs st1 = fs st ∨
     (fs st !! base = None ∧ fs st !! [] = Some Dir ∧
      makedirs (fs st) [] base = Ok (fs st1))).
Proof.
  destruct st as [t c i o].
  unfold locate_project, mbind, M_bind, bind, mret, M_ret, ret,
    path_cwd, print, input, path_exists, mkdir_parents; simpl.
  destruct i as [|r i]; [done|]. simpl.
  case_bool_decide; [|intros [= <- <-]; split; [done|]; exists c; auto].
  destruct i as [|custom i]; [done|]. simpl.
  case_bool_decide; [|intros [= <- <-]; split; [done|]; exists c; auto].
  case_bool_decide as Hex; simpl.
  - intros [= <- <-]. split; [done|]. eexists; split; [done|]. by left.
  - destruct (t !! []) as [[|?]|] eqn:Hroot; [|done..].
    destruct (makedirs t [] _) as [t'|] eqn:Hmk; [|done].
    intros [= <- <-]. split; [done|]. eexists; split; [done|]. right.
    split; [|done]. by apply eq_None_not_Some.
Qed.

Lemma path_exists_run (p : path) (s : state) :
  path_exists p s = (Ok (bool_decide (is_Some (fs s !! p))), s).
Proof. reflexivity. Qed.

(** Once the target is known, has a directory above it and is either free
    or a directory the user gives up, the run ends well: below the target
    stands the scaffold, and the rest of the file system is as it was. *)
Lemma create_builds (g : git_outcome) (st st1 : state) (base : path) :
  let p := base ++ [project_name] in
  locate_project user_path st = (Ok p, st1) →
  wf_fs (fs st1) → fs st1 !! base = Some Dir →
  (fs st1 !! p = None ∨
   (fs st1 !! p = Some Dir ∧
    ∃ ans rest, stdin st1 = ans :: rest ∧ lower ans = "y")) →
  ∃ st',
    create_project_structure user_path g st = (Ok tt, st') ∧
    fs st' = graft p (scaffold g) (fs st1) ∧ cwd st' = p ∧
    ∀ m, m ∈ transcript g → m ∈ stdout st'.
Proof.
  intros p Hloc Hwf Hbase Hcase. subst p. unfold create_project_structure.
  erewrite bind_run by apply Hloc.
  erewrite bind_run by apply path_exists_run.
  destruct Hcase as [Hfree|(Hdir & ans & rest & Hin & Hans)].
  - rewrite bool_decide_eq_false_2 by (rewrite Hfree; by intros [? ?]).
    cbv beta iota.
    destruct (build_run (fs st1) base g st1) as (out & -> & Hout);
      [by rewrite remove_tree_absent|done|].
    eexists. repeat split. intros m Hm. simpl.
    apply elem_of_app. right. by apply Hout.
  - rewrite bool_decide_eq_true_2 by (by rewrite Hdir).
    cbv beta iota.
    destruct st1 as [t1 c1 i1 o1]; simpl in *. subst i1.
    erewrite bind_run by apply input_run.
    rewrite Hans. rewrite bool_decide_eq_false_2 by (by intros H).
    cbv beta iota.
    erewrite bind_run; cycle 1.
    { unfold rmtree; simpl. rewrite Hdir. reflexivity. }
    unfold set_fs; simpl.
    match goal with |- context [build _ g ?s] =>
      destruct (build_run t1 base g s) as (out & -> & Hout); [done..|]
    end.
    eexists. repeat split. intros m Hm. simpl.
    apply elem_of_app. right. by apply Hout.
Qed.

End ScriptProperties.

(** What stands in the scaffold. *)
Lemma scaffold_root (g : git_outcome) : scaffold g !! [] = Some Dir.
Proof. destruct g; vm_compute; reflexivity. Qed.

Lemma scaffold_directories (g : git_outcome) :
  Forall (λ d, scaffold g !! components d = Some Dir) directories.
Proof. repeat constructor; destruct g; vm_compute; reflexivity. Qed.

Lemma scaffold_init_files (g : git_outcome) :
  Forall (λ f, scaffold g !! components f = Some (File (Text ""))) init_files.
Proof. repeat constructor; destruct g; vm_compute; reflexivity. Qed.

Lemma scaffold_git : scaffold GitInitialized !! [".git"] = Some Dir.
Proof. vm_compute; reflexivity. Qed.

Lemma scaffold_no_git (g : git_outcome) :
  g ≠ GitInitialized → scaffold g !! [".git"] = None.
Proof. destruct g; [done|..]; intros _; vm_compute; reflexivity. Qed.

Lemma scaffold_files_after_git (g : git_outcome) :
  Forall (λ f, scaffold g !! components f.1 = Some (File f.2)) files_after_git.
Proof. repeat constructor; destruct g; vm_compute; reflexivity. Qed.

Lemma transcript_git_report (g : git_outcome) : git_report g ∈ transcript g.
Proof.
  apply list_elem_of_lookup. exists 7. destruct g; vm_compute; reflexivity.
Qed.

(** ** The claims about the script *)

(** C1, as amended.  When the user confirms the default location and there
    is no project directory yet, [create_project_structure] returns, and
    under the new project directory stand the directories [src], [tests],
    [data], [output/student_reports] and [.vscode], the two empty
    [__init__.py] files, the editor configuration, the syllabus and the three
    CSV templates; the [.git] directory stands there when [git init]
    succeeded. *)
Theorem create_project_structure_creates
    (user_path : path → string → path) (g : git_outcome) (st : state)
    (r : string) (rest : list string) :
  wf_fs (fs st) → fs st !! cwd st = Some Dir →
  stdin st = r :: rest → lower r = "y" →
  fs st !! (cwd st ++ [project_name]) = None →
  ∃ st',
    create_project_structure user_path g st = (Ok tt, st') ∧
    let p := cwd st ++ [project_name] in
    fs st' !! p = Some Dir ∧
    Forall (λ d, fs st' !! (p ++ components d) = Some Dir) directories ∧
    Forall (λ f, fs st' !! (p ++ components f) = Some (File (Text ""))) init_files ∧
    (g = GitInitialized → fs st' !! (p ++ [".git"]) = Some Dir) ∧
    fs st' !! (p ++ components ".vscode/settings.json")
      = Some (File (JsonDump settings 4)) ∧
    fs st' !! (p ++ components ".vscode/launch.json")
      = Some (File (JsonDump launch 4)) ∧
    fs st' !! (p ++ components "data/syllabus_topics.json")
      = Some (File (JsonDump syllabus 4)) ∧
    Forall (λ f, fs st' !! (p ++ components f.1) = Some (File (Text f.2)))
      csv_templates.
Proof.
  intros Hwf Hcwd Hin Hr Hfree.
  destruct (locate_project_default user_path st r rest Hin Hr) as (out & Hloc).
  destruct (create_builds user_path g st _ (cwd st) Hloc)
    as (st' & Hrun & Hfs & _); [done..|by left|].
  simpl in Hfs. exists st'. split; [done|]. rewrite Hfs. cbv zeta.
  repeat split.
  - by rewrite graft_lookup_root, scaffold_root.
  - eapply Forall_impl; [apply (scaffold_directories g)|].
    intros d Hd. by rewrite graft_lookup_under.
  - eapply Forall_impl; [apply (scaffold_init_files g)|].
    intros f Hf. by rewrite graft_lookup_under.
  - intros ->. by rewrite graft_lookup_under, scaffold_git.
  - rewrite graft_lookup_under. destruct g; vm_compute; reflexivity.
  - rewrite graft_lookup_under. destruct g; vm_compute; reflexivity.
  - rewrite graft_lookup_under. destruct g; vm_compute; reflexivity.
  - repeat constructor; rewrite graft_lookup_under;
      destruct g; vm_compute; reflexivity.
Qed.

Lemma wf_home_fs : wf_fs home_fs.
Proof. apply wf_fsb_correct. vm_compute. reflexivity. Qed.

Lemma wf_used_fs : wf_fs used_fs.
Proof. apply wf_fsb_correct. vm_compute. reflexivity. Qed.

Lemma create_project_structure_creates_witness :
  wf_fs home_fs ∧
  home_fs !! ["home"] = Some Dir ∧
  lower "Y" = "y" ∧
  home_fs !! ["home"; project_name] = None ∧
  ∃ st',
    create_project_structure no_expansion GitInitialized (at_home home_fs ["Y"])
      = (Ok tt, st') ∧
    fs st' !! ["home"; project_name; "src"] = Some Dir ∧
    fs st' !! ["home"; project_name; ".git"] = Some Dir.
Proof.
  assert (wf_fs home_fs) as Hwf by exact wf_home_fs.
  assert (home_fs !! ["home"] = Some Dir) as Hcwd by (vm_compute; reflexivity).
  assert (lower "Y" = "y") as Hr by reflexivity.
  assert (home_fs !! ["home"; project_name] = None) as Hfree
    by (vm_compute; reflexivity).
  refine (conj Hwf (conj Hcwd (conj Hr (conj Hfree _)))).
  destruct (create_project_structure_creates no_expansion GitInitialized
              (at_home home_fs ["Y"]) "Y" [] Hwf Hcwd eq_refl Hr Hfree)
    as (st' & Hrun & _ & Hdirs & _ & Hgit & _).
  exists st'. split; [exact Hrun|]. split.
  - exact (Forall_inv Hdirs).
  - exact (Hgit eq_refl).
Defined.

(** C1 as it is written fails: without [git] the run creates everything but
    the repository. *)
Lemma create_project_structure_without_git :
  let st := at_home home_fs ["y"] in
  let run := create_project_structure no_expansion GitMissing st in
  wf_fs (fs st) ∧ fs st !! cwd st = Some Dir ∧ lower "y" = "y" ∧
  fs st !! (cwd st ++ [project_name]) = None ∧
  fst run = Ok tt ∧
  fs (snd run) !! (cwd st ++ [project_name; ".git"]) = None.
Proof.
  cbv zeta. split; [exact wf_home_fs|].
  repeat split; vm_compute; reflexivity.
Qed.

(** C8.  When the project directory already exists and the answer to the
    overwrite prompt is not [y], in either case, [create_project_structure]
    returns at once: the file system and the working directory are as they
    were, and the last thing printed is the cancellation. *)
Theorem create_project_structure_cancelled
    (user_path : path → string → path) (g : git_outcome) (st st1 : state)
    (p : path) (ans : string) (rest : list string) :
  wf_fs (fs st) →
  locate_project user_path st = (Ok p, st1) →
  is_Some (fs st !! p) →
  stdin st1 = ans :: rest → lower ans ≠ "y" →
  create_project_structure user_path g st
  = (Ok tt,
     State (fs st) (cwd st) rest
       (stdout st1 ++ [AskPath "
Directory " p " already exists. Overwrite? (y/n): ";
                       Say "Project creation cancelled."])).
Proof.
  intros Hwf Hloc Hex Hin Hans.
  destruct (locate_project_inv user_path _ _ _ Hloc)
    as (Hcwd & base & -> & Hfs).
  assert (fs st1 = fs st) as Hsame.
  { destruct Hfs as [?|(Hnone & _)]; [done|].
    destruct Hwf as [_ Hwf]. rewrite (Hwf _ _ Hex) in Hnone. done. }
  unfold create_project_structure.
  erewrite bind_run by apply Hloc.
  erewrite bind_run by apply path_exists_run.
  rewrite bool_decide_eq_true_2 by (by rewrite Hsame). cbv beta iota.
  destruct st1 as [t1 c1 i1 o1]; simpl in *. subst.
  erewrite bind_run by apply input_run.
  rewrite bool_decide_eq_true_2 by done. cbv beta iota.
  rewrite print_run. by rewrite <- app_assoc.
Qed.

Lemma create_project_structure_cancelled_witness :
  wf_fs used_fs ∧
  is_Some (used_fs !! ["home"; project_name]) ∧
  lower "No" ≠ "y" ∧
  fs (snd (create_project_structure no_expansion GitInitialized
             (at_home used_fs ["y"; "No"]))) = used_fs.
Proof.
  assert (wf_fs used_fs) as Hwf by exact wf_used_fs.
  assert (is_Some (used_fs !! ["home"; project_name])) as Hex
    by (exists Dir; vm_compute; reflexivity).
  assert (lower "No" ≠ "y") as Hans by (vm_compute; discriminate).
  refine (conj Hwf (conj Hex (conj Hans _))).
  rewrite (create_project_structure_cancelled no_expansion GitInitialized
             (at_home used_fs ["y"; "No"]) _ ["home"; project_name]
             "No" [] Hwf eq_refl Hex eq_refl Hans).
  reflexivity.
Defined.

(** C9.  When the project directory already exists and the answer to the
    overwrite prompt is [y], [shutil.rmtree] removes the directory and the
    whole tree below it before the project is built again: the build runs
    on the state [rmtree] leaves, where nothing is at or below the project
    directory, and afterwards the project directory holds the scaffold and
    nothing else, so that whatever the user kept there is gone, while the
    rest of the file system is as it was. *)
Theorem create_project_structure_overwrites
    (user_path : path → string → path) (g : git_outcome) (st st1 : state)
    (p : path) (ans : string) (rest : list string) :
  wf_fs (fs st) →
  locate_project user_path st = (Ok p, st1) →
  fs st !! p = Some Dir →
  stdin st1 = ans :: rest → lower ans = "y" →
  ∃ asked st2 st',
    fs asked = fs st ∧
    rmtree p asked = (Ok tt, st2) ∧
    (∀ q, fs st2 !! (p ++ q) = None) ∧
    (∀ k, ¬ p `prefix_of` k → fs st2 !! k = fs st !! k) ∧
    create_project_structure user_path g st = build p g st2 ∧
    build p g st2 = (Ok tt, st') ∧
    (∀ q, fs st' !! (p ++ q) = scaffold g !! q) ∧
    (∀ k, ¬ p `prefix_of` k → fs st' !! k = fs st !! k).
Proof.
  intros Hwf Hloc Hdir Hin Hans.
  destruct (locate_project_inv user_path _ _ _ Hloc)
    as (Hcwd & base & -> & Hfs).
  assert (fs st !! base = Some Dir) as Hbase
    by (destruct Hwf as [_ Hwf]; apply (Hwf _ project_name); eauto).
  assert (fs st1 = fs st) as Hsame.
  { destruct Hfs as [?|(Hnone & _)]; [done|congruence]. }
  destruct st1 as [t1 c1 i1 o1]; simpl in *. subst.
  set (p := base ++ [project_name]) in *.
  set (ask := AskPath "
Directory " p " already exists. Overwrite? (y/n): ").
  set (asked := State (fs st) (cwd st) rest (o1 ++ [ask])).
  assert (rmtree p asked
          = (Ok tt, State (remove_tree p (fs st)) (cwd st) rest (o1 ++ [ask])))
    as Hrm by (unfold rmtree, asked; simpl; by rewrite Hdir).
  destruct (build_run (fs st) base g
              (State (remove_tree p (fs st)) (cwd st) rest (o1 ++ [ask])))
    as (out & Hbuild & _); [done..|].
  exists asked. eexists. eexists.
  split; [done|]. split; [exact Hrm|].
  split; [intros q; apply remove_tree_lookup_under|].
  split; [intros k Hk; by apply remove_tree_lookup_outside|].
  split; [|split; [exact Hbuild|split]].
  - unfold create_project_structure.
    erewrite bind_run by apply Hloc.
    erewrite bind_run by apply path_exists_run.
    simpl. rewrite bool_decide_eq_true_2 by (by rewrite Hdir). cbv beta iota.
    erewrite bind_run by apply input_run.
    rewrite Hans. rewrite bool_decide_eq_false_2 by (by intros H).
    cbv beta iota.
    erewrite bind_run by exact Hrm. reflexivity.
  - intros q. apply graft_lookup_under.
  - intros k Hk. simpl. by apply graft_lookup_outside.
Qed.

Lemma create_project_structure_overwrites_witness :
  wf_fs used_fs ∧
  used_fs !! ["home"; project_name] = Some Dir ∧
  lower "Y" = "y" ∧
  used_fs !! ["home"; project_name; "notes.txt"] = Some (File (Text "keep")) ∧
  fs (snd (create_project_structure no_expansion GitInitialized
             (at_home used_fs ["y"; "Y"])))
    !! ["home"; project_name; "notes.txt"] = None.
Proof.
  assert (wf_fs used_fs) as Hwf by exact wf_used_fs.
  assert (used_fs !! ["home"; project_name] = Some Dir) as Hdir
    by (vm_compute; reflexivity).
  assert (lower "Y" = "y") as Hans by reflexivity.
  refine (conj Hwf (conj Hdir (conj Hans (conj _ _)))); [vm_compute; reflexivity|].
  destruct (create_project_structure_overwrites no_expansion GitInitialized
              (at_home used_fs ["y"; "Y"]) _ ["home"; project_name]
              "Y" [] Hwf eq_refl Hdir eq_refl Hans)
    as (asked & st2 & st' & _ & _ & _ & _ & -> & -> & Hunder & _).
  etrans; [exact (Hunder ["notes.txt"])|]. vm_compute. reflexivity.
Defined.

(** C10.  A failure of [git init], by a missing [git] or by an exit code
    other than zero, is not fatal: whenever the project directory gets
    built, in a fresh place or over a directory the user gave up,
    [create_project_structure] still returns, the warning is printed, no
    repository is there, and every file written after the [git] step is in
    place with its content. *)
Theorem create_project_structure_survives_git
    (user_path : path → string → path) (g : git_outcome) (st st1 : state)
    (base : path) :
  let p := base ++ [project_name] in
  g ≠ GitInitialized →
  wf_fs (fs st) →
  locate_project user_path st = (Ok p, st1) →
  fs st1 !! base = Some Dir →
  (fs st1 !! p = None ∨
   (fs st1 !! p = Some Dir ∧
    ∃ ans rest, stdin st1 = ans :: rest ∧ lower ans = "y")) →
  ∃ st',
    create_project_structure user_path g st = (Ok tt, st') ∧
    git_report g ∈ stdout st' ∧
    fs st' !! (p ++ [".git"]) = None ∧
    Forall (λ f, fs st' !! (p ++ components f.1) = Some (File f.2))
      files_after_git.
Proof.
  intros p Hg Hwf Hloc Hbase Hcase. subst p.
  assert (wf_fs (fs st1)) as Hwf1.
  { destruct (locate_project_inv user_path _ _ _ Hloc)
      as (_ & base' & _ & [->|(_ & Hroot & Hmk)]); [done|].
    by eapply makedirs_wf. }
  destruct (create_builds user_path g st st1 base Hloc Hwf1 Hbase Hcase)
    as (st' & Hrun & Hfs & _ & Hout).
  exists st'. split; [done|]. rewrite Hfs. repeat split.
  - apply Hout, transcript_git_report.
  - by rewrite graft_lookup_under, scaffold_no_git.
  - eapply Forall_impl; [apply (scaffold_files_after_git g)|].
    intros f Hf. simpl. by rewrite graft_lookup_under.
Qed.

Lemma create_project_structure_survives_git_witness :
  GitMissing ≠ GitInitialized ∧
  wf_fs home_fs ∧
  home_fs !! ["home"] = Some Dir ∧
  home_fs !! ["home"; project_name] = None ∧
  ∃ st',
    create_project_structure no_expansion GitMissing (at_home home_fs ["y"])
      = (Ok tt, st') ∧
    git_report GitMissing ∈ stdout st' ∧
    fs st' !! (["home"; project_name] ++ [".git"]) = None ∧
    Forall (λ f, fs st' !! (["home"; project_name] ++ components f.1)
                 = Some (File f.2))
      files_after_git.
Proof.
  assert (GitMissing ≠ GitInitialized) as Hg by discriminate.
  assert (wf_fs home_fs) as Hwf by exact wf_home_fs.
  assert (home_fs !! ["home"] = Some Dir) as Hbase by (vm_compute; reflexivity).
  assert (home_fs !! ["home"; project_name] = None) as Hfree
    by (vm_compute; reflexivity).
  refine (conj Hg (conj Hwf (conj Hbase (conj Hfree _)))).
  exact (create_project_structure_survives_git no_expansion GitMissing
           (at_home home_fs ["y"]) _ ["home"] Hg Hwf eq_refl Hbase
           (or_introl Hfree)).
Defined.

(** * Properties of the analysis core, as the specification models it *)

(** C7.  [map] returns exactly the topics the table holds for the question,
    and fails, with [UnmappedQuestionError] and nothing else, exactly when
    the table has no entry for it. *)
Theorem topic_mapper_map_contract
    (tags : gmap question_id (gset topic_id)) (q : question_id) :
  (∀ topics, TopicMapper.map tags q = Done topics ↔ tags !! q = Some topics) ∧
  (∀ e, TopicMapper.map tags q = Fail e ↔
        e = UnmappedQuestionError ∧ tags !! q = None).
Proof.
  unfold TopicMapper.map. destruct (tags !! q) as [ts|]; split.
  - intros topics. split; congruence.
  - intros e. split; [done|]. by intros [_ ?].
  - intros topics. split; done.
  - intros e. split; [by intros [= <-]|]. by intros [-> _].
Qed.

(** C2.  With valid weights, [analyze] gives a syllabus topic that has no
    mapped question for the student the [Indeterminate] state: no score,
    and in particular not the score 0; and the topic is not weak, whatever
    the threshold. *)
Theorem analyze_unmapped_indeterminate
    (aggregate : WeaknessAnalyzer.Config → WeaknessAnalyzer.StudentRecord →
                 topic_id → list question_id → Q)
    (cfg : WeaknessAnalyzer.Config) (r : WeaknessAnalyzer.StudentRecord)
    (topic_map : gmap question_id (gset topic_id)) (syllabus : gset topic_id)
    (t : topic_id) :
  WeaknessAnalyzer.weights_valid cfg = true →
  t ∈ syllabus →
  WeaknessAnalyzer.mapped_questions r topic_map t = [] →
  ∃ scores,
    WeaknessAnalyzer.analyze aggregate cfg r topic_map syllabus = Done scores ∧
    scores !! t = Some WeaknessAnalyzer.Indeterminate ∧
    (∀ s, scores !! t ≠ Some (WeaknessAnalyzer.Known s)) ∧
    ∀ thr, t ∉ WeaknessAnalyzer.weak_topics thr scores.
Proof.
  intros Hw Ht Hq. unfold WeaknessAnalyzer.analyze. rewrite Hw.
  eexists. split; [done|].
  match goal with |- ?m !! t = _ ∧ _ =>
    assert (m !! t = Some WeaknessAnalyzer.Indeterminate) as Hlook
  end.
  { apply lookup_set_to_map; [by intros ?? _ _ [= ->]|].
    exists t. split; [done|]. unfold WeaknessAnalyzer.mastery. by rewrite Hq. }
  split; [done|]. split; [by rewrite Hlook|].
  intros thr. unfold WeaknessAnalyzer.weak_topics.
  rewrite elem_of_dom. intros [m Hm].
  apply map_lookup_filter_Some in Hm as [Hm Hweak]. simpl in Hweak.
  rewrite Hlook in Hm. by injection Hm as <-.
Qed.

Lemma analyze_unmapped_indeterminate_witness :
  WeaknessAnalyzer.weights_valid WeaknessAnalyzer.default_config = true ∧
  "T3" ∈ sample_syllabus ∧
  WeaknessAnalyzer.mapped_questions sample_record sample_topic_map "T3" = [] ∧
  ∃ scores,
    WeaknessAnalyzer.analyze mcq_mean WeaknessAnalyzer.default_config
      sample_record sample_topic_map sample_syllabus = Done scores ∧
    scores !! "T3" = Some WeaknessAnalyzer.Indeterminate ∧
    (∀ s, scores !! "T3" ≠ Some (WeaknessAnalyzer.Known s)) ∧
    ∀ thr, "T3" ∉ WeaknessAnalyzer.weak_topics thr scores.
Proof.
  assert (WeaknessAnalyzer.weights_valid WeaknessAnalyzer.default_config = true)
    as Hw by reflexivity.
  assert ("T3" ∈ sample_syllabus) as Ht
    by (apply (bool_decide_unpack _); vm_compute; exact I).
  assert (WeaknessAnalyzer.mapped_questions sample_record sample_topic_map "T3"
          = []) as Hq by (vm_compute; reflexivity).
  exact (conj Hw (conj Ht (conj Hq
    (analyze_unmapped_indeterminate mcq_mean WeaknessAnalyzer.default_config
       sample_record sample_topic_map sample_syllabus "T3" Hw Ht Hq)))).
Defined.

(** C3.  A topic is weak exactly when it has a score and the score is
    strictly below the threshold; a score equal to the threshold is not
    weak. *)
Theorem weak_topics_boundary
    (thr : Q) (scores : gmap topic_id WeaknessAnalyzer.MasteryScore)
    (t : topic_id) :
  (t ∈ WeaknessAnalyzer.weak_topics thr scores ↔
   ∃ s, scores !! t = Some (WeaknessAnalyzer.Known s) ∧ (s < thr)%Q) ∧
  (∀ s, scores !! t = Some (WeaknessAnalyzer.Known s) → (s == thr)%Q →
        t ∉ WeaknessAnalyzer.weak_topics thr scores).
Proof.
  assert (t ∈ WeaknessAnalyzer.weak_topics thr scores ↔
          ∃ s, scores !! t = Some (WeaknessAnalyzer.Known s) ∧ (s < thr)%Q)
    as Hiff.
  { unfold WeaknessAnalyzer.weak_topics. rewrite elem_of_dom. split.
    - intros [m Hm]. apply map_lookup_filter_Some in Hm as [Hm Hweak].
      simpl in Hweak. destruct m as [s|]; [|done]. exists s. split; [done|].
      apply Qnot_le_lt. intros Hle%Qle_bool_iff. simpl in Hweak.
      by rewrite Hle in Hweak.
    - intros (s & Hs & Hlt). exists (WeaknessAnalyzer.Known s).
      apply map_lookup_filter_Some. split; [done|]. simpl.
      destruct (Qle_bool thr s) eqn:E; [|done].
      apply Qle_bool_iff in E. by apply Qle_not_lt in E. }
  split; [exact Hiff|].
  intros s Hs Heq [s' [Hs' Hlt]]%Hiff.
  rewrite Hs in Hs'. injection Hs' as <-.
  rewrite Heq in Hlt. by apply Qlt_irrefl in Hlt.
Qed.

(** C6.  For weak topics that are not none, a bank without any question
    tagged with one of them makes [assemble] fail with
    [InsufficientQuestionsError]. *)
Theorem assemble_insufficient_questions
    (student : string) (weak_topics : list topic_id)
    (bank : PaperAssembler.question_bank) (history : gset question_id)
    (max_questions : nat) :
  weak_topics ≠ [] →
  (∀ q t, q ∈ bank → t ∈ weak_topics → t ∉ q.2) →
  PaperAssembler.assemble student weak_topics bank history max_questions
  = Fail InsufficientQuestionsError.
Proof.
  intros Hne Hnone. unfold PaperAssembler.assemble.
  rewrite bool_decide_eq_true_2; [done|].
  destruct weak_topics as [|t ws]; [done|]. apply Exists_cons_hd.
  unfold PaperAssembler.tagged.
  induction bank as [|q bank IH]; [done|].
  rewrite filter_cons_False.
  - apply IH. intros q' t' Hq'. apply Hnone. by right.
  - apply Hnone; by left.
Qed.

Lemma assemble_insufficient_questions_witness :
  ["T1"; "T3"] ≠ ([] : list topic_id) ∧
  (∀ q t, q ∈ sample_bank → t ∈ ["T1"; "T3"] → t ∉ q.2) ∧
  PaperAssembler.assemble "s1" ["T1"; "T3"] sample_bank ∅ 5
  = Fail InsufficientQuestionsError.
Proof.
  assert (["T1"; "T3"] ≠ ([] : list topic_id)) as Hne by discriminate.
  assert (∀ q t, q ∈ sample_bank → t ∈ ["T1"; "T3"] → t ∉ q.2) as Hnone.
  { intros q t Hq Ht. apply (bool_decide_unpack _).
    apply list_elem_of_In in Hq, Ht. simpl in Hq, Ht.
    destruct Hq as [<-|[<-|[]]]; destruct Ht as [<-|[<-|[]]];
      vm_compute; exact I. }
  exact (conj Hne (conj Hnone
    (assemble_insufficient_questions "s1" ["T1"; "T3"] sample_bank ∅ 5
       Hne Hnone))).
Defined.

(** * Further properties of the set-up script *)

(** ** Commands that stay inside a directory *)

Section Confinement.

Variable p : path.
Variable t0 : filesystem.

#[local] Abbreviation frame := (frame p t0).
#[local] Abbreviation confined := (confined p t0).

Lemma confined_ret {A} (R : A → Prop) (a : A) : R a → confined R (mret a).
Proof. intros HR s r s' Hf [= <- <-]. split; [done|]. by intros ? [= <-]. Qed.

Lemma confined_bind {A B} (R : A → Prop) (R' : B → Prop)
    (m : M A) (k : A → M B) :
  confined R m → (∀ a, R a → confined R' (k a)) → confined R' (m ≫= k).
Proof.
  intros Hm Hk s r s' Hf. unfold mbind, M_bind, bind.
  destruct (m s) as [[a|e] s1] eqn:E.
  - destruct (Hm _ _ _ Hf E) as [Hf1 Ha]. by apply Hk; [apply Ha|].
  - intros [= <- <-]. split; [by apply (Hm _ _ _ Hf E)|done].
Qed.

Lemma confined_weaken {A} (R R' : A → Prop) (m : M A) :
  (∀ a, R a → R' a) → confined R m → confined R' m.
Proof.
  intros HR Hm s r s' Hf E. destruct (Hm _ _ _ Hf E) as [? Ha].
  split; [done|]. intros a ->. by apply HR, Ha.
Qed.

Lemma confined_for_each {A} (xs : list A) (body : A → M unit) :
  (∀ x, confined (λ _, True) (body x)) →
  confined (λ _, True) (for_each xs body).
Proof.
  intros Hb. induction xs as [|x xs IH]; simpl.
  - by apply confined_ret.
  - eapply confined_bind; [apply Hb|]. by intros.
Qed.

Lemma confined_try_except {A} (R : A → Prop) (m : M A)
    (handler : exn → option (M A)) :
  confined R m → (∀ e h, handler e = Some h → confined R h) →
  confined R (try_except m handler).
Proof.
  intros Hm Hh s r s' Hf. unfold try_except.
  destruct (m s) as [[a|e] s1] eqn:E.
  - intros [= <- <-]. by apply (Hm _ _ _ Hf E).
  - destruct (Hm _ _ _ Hf E) as [Hf1 _].
    destruct (handler e) as [h|] eqn:Eh.
    + by apply (Hh _ _ Eh).
    + intros [= <- <-]. by split.
Qed.

Lemma confined_print msg : confined (λ _, True) (print msg).
Proof. intros s r s' Hf [= <- <-]. by split. Qed.

Lemma confined_path_cwd : confined (λ a, a = p) path_cwd.
Proof.
  intros s r s' Hf [= <- <-]. split; [done|]. intros a [= <-]. apply Hf.
Qed.

Lemma confined_here name : confined (λ a, p `prefix_of` a) (here name).
Proof.
  intros s r s' Hf [= <- <-]. split; [done|]. intros a [= <-].
  destruct Hf as [-> _]. by apply prefix_app_r.
Qed.

Lemma lookup_insert_outside (t : filesystem) (f k : path) (v : node) :
  p `prefix_of` f → ¬ p `prefix_of` k → <[f := v]> t !! k = t !! k.
Proof. intros Hf Hk. apply lookup_insert_ne. by intros ->. Qed.

Lemma makedirs_outside (t t' : filesystem) (done todo k : path) :
  makedirs t done todo = Ok t' → p `prefix_of` done → ¬ p `prefix_of` k →
  t' !! k = t !! k.
Proof.
  revert t done. induction todo as [|c todo IH]; intros t done; simpl.
  - by intros [= <-].
  - intros Hrun Hd Hk.
    assert (p `prefix_of` done ++ [c]) as Hd' by by apply prefix_app_r.
    destruct (t !! (done ++ [c])) as [[|?]|]; [by eapply IH|done|].
    rewrite (IH _ _ Hrun Hd' Hk). by apply lookup_insert_outside.
Qed.

Lemma confined_mkdir_parents rel : confined (λ _, True) (mkdir_parents p rel).
Proof.
  intros s r s' [Hc Hf]. unfold mkdir_parents.
  destruct (fs s !! p) as [[|?]|]; [|by intros [= <- <-]..].
  destruct (makedirs (fs s) p rel) as [t|e] eqn:E; intros [= <- <-];
    [|done].
  split; [|done]. split; [done|]. intros k Hk. simpl.
  rewrite <- (Hf k Hk). by eapply makedirs_outside.
Qed.

Lemma confined_touch f : p `prefix_of` f → confined (λ _, True) (touch f).
Proof.
  intros Hp s r s' [Hc Hf]. unfold touch.
  destruct (fs s !! f); [by intros [= <- <-]|].
  destruct (fs s !! parent f) as [[|?]|]; intros [= <- <-]; try done.
  split; [|done]. split; [done|]. intros k Hk. simpl.
  rewrite <- (Hf k Hk). by apply lookup_insert_outside.
Qed.

Lemma confined_write_file f content :
  p `prefix_of` f → confined (λ _, True) (write_file f content).
Proof.
  intros Hp s r s' [Hc Hf]. unfold write_file.
  assert (frame (set_fs (<[f := File content]> (fs s)) s)) as Hnew.
  { split; [done|]. intros k Hk. simpl.
    rewrite <- (Hf k Hk). by apply lookup_insert_outside. }
  destruct (fs s !! f) as [[|?]|]; [by intros [= <- <-]|by intros [= <- <-]|].
  destruct (fs s !! parent f) as [[|?]|]; by intros [= <- <-].
Qed.

Lemma confined_git_init g : confined (λ _, True) (git_init g).
Proof.
  intros s r s' [Hc Hf]. unfold git_init.
  destruct g; intros [= <- <-]; [|done..].
  split; [|done]. split; [done|]. intros k Hk. simpl.
  rewrite <- (Hf k Hk). apply lookup_insert_outside; [|done].
  rewrite Hc. by apply prefix_app_r.
Qed.

Lemma confined_initialize_git g : confined (λ _, True) (initialize_git g).
Proof.
  apply confined_try_except.
  - eapply confined_bind; [apply confined_git_init|].
    intros. apply confined_print.
  - intros e h. destruct e; intros [= <-]; apply confined_print.
Qed.

Ltac confine :=
  repeat first
    [ apply confined_for_each; intros
    | apply confined_print
    | apply confined_initialize_git
    | apply confined_mkdir_parents
    | apply confined_touch; assumption
    | apply confined_write_file; assumption
    | eapply confined_bind;
        [apply confined_here|cbv beta; intros]
    | eapply confined_bind;
        [apply confined_path_cwd|cbv beta; intros ? ->]
    | eapply confined_bind; [|intros]
    | match goal with
      | |- context [let '(_, _) := ?x in _] => destruct x
      end ].

Lemma confined_populate g : confined (λ _, True) (populate g).
Proof.
  unfold populate, create_gitignore, create_requirements, create_readme,
    create_vscode_config, create_sample_data_structure.
  confine.
Qed.

End Confinement.

(** ** What [makedirs] does *)

Lemma makedirs_adds (t t' : filesystem) (done todo k : path) :
  makedirs t done todo = Ok t' →
  t' !! k = t !! k ∨ (t !! k = None ∧ t' !! k = Some Dir).
Proof.
  revert t done. induction todo as [|c todo IH]; intros t done; simpl.
  - intros [= <-]. by left.
  - destruct (t !! (done ++ [c])) as [[|?]|] eqn:E; [by apply IH|done|].
    intros Hrun. destruct (decide (k = done ++ [c])) as [->|Hk].
    + right. split; [done|].
      destruct (IH _ _ Hrun) as [->|[Hn _]]; rewrite lookup_insert_eq in *;
        done.
    + destruct (IH _ _ Hrun) as [->|[Hn ->]];
        rewrite lookup_insert_ne in * by done; auto.
Qed.




Lemma blocked_file (t : filesystem) (done todo : path) (c : file_content) :
  t !! (done ++ todo) = Some (File c) → blocked t done todo = true.
Proof.
  revert done. induction todo as [|x todo IH]; intros done; simpl.
  - rewrite app_nil_r. by intros ->.
  - replace (done ++ x :: todo) with ((done ++ [x]) ++ todo)
      by by rewrite <- app_assoc.
    intros H%IH.
    by destruct (t !! done) as [[|?]|].
Qed.

Lemma blocked_found (t : filesystem) (done todo : path) :
  blocked t done todo = true →
  ∃ pre c, pre `prefix_of` todo ∧ t !! (done ++ pre) = Some (File c).
Proof.
  revert done. induction todo as [|x todo IH]; intros done; simpl.
  - destruct (t !! done) as [[|c]|] eqn:E; [done| |done].
    intros _. exists [], c. by rewrite app_nil_r.
  - destruct (t !! done) as [[|c]|] eqn:E.
    + intros (pre & c & Hpre & Hc)%IH. exists (x :: pre), c.
      split; [by apply prefix_cons|]. by rewrite <- app_assoc in Hc.
    + intros _. exists [], c. split; [apply prefix_nil|by rewrite app_nil_r].
    + intros (pre & c & Hpre & Hc)%IH. exists (x :: pre), c.
      split; [by apply prefix_cons|]. by rewrite <- app_assoc in Hc.
Qed.

(** In a tree, whatever lies above something that exists is a directory. *)
Lemma wf_above (t : filesystem) (a b : path) :
  wf_fs t → is_Some (t !! (a ++ b)) → b ≠ [] → t !! a = Some Dir.
Proof.
  intros [Hroot Hwf]. induction b as [|c b IH] using rev_ind; [done|].
  intros Hex _. rewrite app_assoc in Hex. apply Hwf in Hex.
  destruct b as [|x b]; [by rewrite app_nil_r in Hex|].
  apply IH; [by rewrite Hex|done].
Qed.

Lemma blocked_below_dir (t : filesystem) (c : path) (x : string) :
  wf_fs t → t !! c = Some Dir → t !! (c ++ [x]) = None →
  blocked t [] (c ++ [x]) = false.
Proof.
  intros Hwf Hc Hx. destruct (blocked t [] (c ++ [x])) eqn:E; [|done].
  apply blocked_found in E as (pre & f & [rest Hpre] & Hf). simpl in Hf.
  destruct rest as [|y rest _] using rev_ind.
  - rewrite app_nil_r in Hpre. subst pre. congruence.
  - rewrite app_assoc in Hpre. apply app_inj_tail in Hpre as [-> _].
    destruct rest as [|z rest]; [rewrite app_nil_r in Hc; congruence|].
    rewrite (wf_above t pre (z :: rest)) in Hf; [done..| |done].
    by rewrite Hc.
Qed.

(** ** The run, however it ends *)

Lemma bind_inv {A B} (m : M A) (k : A → M B) s r s' :
  (m ≫= k) s = (r, s') →
  (∃ a s1, m s = (Ok a, s1) ∧ k a s1 = (r, s')) ∨
  (∃ e, m s = (Raise e, s') ∧ r = Raise e).
Proof.
  unfold mbind, M_bind, bind. destruct (m s) as [[a|e] s1].
  - intros H. left. by exists a, s1.
  - intros [= <- <-]. right. by exists e.
Qed.

Lemma mkdir_exist_ok_outside (p k : path) s r s' :
  mkdir_exist_ok p s = (r, s') → k ≠ p →
  fs s' !! k = fs s !! k ∧ cwd s' = cwd s.
Proof.
  unfold mkdir_exist_ok, try_except, os_mkdir. intros Hrun Hk.
  destruct (fs s !! p) as [[|?]|] eqn:Ep.
  - rewrite Ep in Hrun. by injection Hrun as <- <-.
  - rewrite Ep in Hrun. by injection Hrun as <- <-.
  - destruct (fs s !! parent p) as [[|?]|];
      [|destruct (path_error _ _); try rewrite Ep in Hrun..];
      injection Hrun as <- <-; try done.
    simpl. by rewrite lookup_insert_ne.
Qed.

Lemma build_outside (p : path) (g : git_outcome) s r s' :
  build p g s = (r, s') → ∀ k, ¬ p `prefix_of` k → fs s' !! k = fs s !! k.
Proof.
  intros Hrun k Hk. unfold build in Hrun.
  apply bind_inv in Hrun as [([] & s1 & [= <-] & Hrun)|(e & [=] & _)].
  apply bind_inv in Hrun as [([] & s2 & Hmk & Hrun)|(e & Hmk & _)]; cycle 1.
  { destruct (mkdir_exist_ok_outside _ k _ _ _ Hmk) as [Hout _];
      [intros Heq; apply Hk; by rewrite Heq|].
    by rewrite Hout. }
  destruct (mkdir_exist_ok_outside _ k _ _ _ Hmk) as [Hout _];
    [intros Heq; apply Hk; by rewrite Heq|].
  simpl in Hout. rewrite <- Hout. clear Hout.
  apply bind_inv in Hrun as [([] & s3 & Hcd & Hrun)|(e & Hcd & _)]; cycle 1.
  { unfold chdir in Hcd. by destruct (fs s2 !! p) as [[|?]|]; simplify_eq. }
  assert (frame p (fs s2) s3) as Hf.
  { unfold chdir in Hcd. destruct (fs s2 !! p) as [[|?]|]; simplify_eq.
    by split. }
  revert Hrun. generalize s3 r s' Hf k Hk. clear.
  intros s3 r s' Hf k Hk Hrun.
  eapply (confined_bind p (fs s2) (λ _, True) (λ _, True)) in Hrun as [[_ H] _];
    [by apply H| | |exact Hf].
  - apply confined_print.
  - intros _ _. eapply confined_bind; [apply confined_populate|].
    intros _ _. repeat (eapply confined_bind; [apply confined_print|intros _ _]).
    apply confined_print.
Qed.

Section ScriptRuns.

Variable user_path : path → string → path.

Lemma locate_project_adds (st st1 : state) (r : outcome path) :
  locate_project user_path st = (r, st1) →
  cwd st1 = cwd st ∧
  ∀ k, fs st1 !! k = fs st !! k ∨ (fs st !! k = None ∧ fs st1 !! k = Some Dir).
Proof.
  destruct st as [t c i o].
  unfold locate_project, mbind, M_bind, bind, mret, M_ret, ret,
    path_cwd, print, input, path_exists, mkdir_parents; simpl.
  destruct i as [|a i]; [intros [= <- <-]; auto|]. simpl.
  case_bool_decide; [|intros [= <- <-]; auto].
  destruct i as [|custom i]; [intros [= <- <-]; auto|]. simpl.
  case_bool_decide; [|intros [= <- <-]; auto].
  case_bool_decide as Hex; simpl; [intros [= <- <-]; auto|].
  destruct (t !! []) as [[|?]|] eqn:Hroot; [|intros [= <- <-]; auto..].
  destruct (makedirs t [] _) as [t'|] eqn:Hmk; intros [= <- <-]; simpl;
    [|auto].
  split; [done|]. intros k. by eapply makedirs_adds.
Qed.

Lemma create_outside (g : git_outcome) (st st1 st' : state) (p : path)
    (r : outcome unit) :
  locate_project user_path st = (Ok p, st1) →
  create_project_structure user_path g st = (r, st') →
  ∀ k, ¬ p `prefix_of` k → fs st' !! k = fs st1 !! k.
Proof.
  intros Hloc Hrun k Hk. unfold create_project_structure in Hrun.
  rewrite (bind_run _ _ _ _ _ Hloc) in Hrun.
  rewrite (bind_run _ _ _ _ _ (path_exists_run p st1)) in Hrun.
  destruct (bool_decide (is_Some (fs st1 !! p))).
  - apply bind_inv in Hrun as [(ans & s1 & Hin & Hrun)|(e & Hin & _)];
      cycle 1.
    { unfold input in Hin. by destruct (stdin st1); simplify_eq. }
    assert (fs s1 = fs st1) as Hs1.
    { unfold input in Hin. by destruct (stdin st1); simplify_eq. }
    cbv zeta in Hrun. destruct (bool_decide (lower ans ≠ "y")).
    + injection Hrun as <- <-. simpl. by rewrite Hs1.
    + apply bind_inv in Hrun as [([] & s2 & Hrm & Hrun)|(e & Hrm & _)].
      * rewrite (build_outside _ _ _ _ _ Hrun k Hk). rewrite <- Hs1.
        unfold rmtree in Hrm. destruct (fs s1 !! p) as [[|?]|]; simplify_eq.
        simpl. by apply remove_tree_lookup_outside.
      * rewrite <- Hs1. unfold rmtree in Hrm.
        by destruct (fs s1 !! p) as [[|?]|]; simplify_eq.
  - by eapply build_outside.
Qed.

End ScriptRuns.

Lemma scaffold_entries (g : git_outcome) (q : path) :
  is_Some (scaffold g !! q) ↔ q ∈ project_entries g.
Proof.
  split.
  - intros [v Hv].
    assert (forallb (λ k, bool_decide (k ∈ project_entries g))
              (map_to_list (scaffold g)).*1 = true) as Hall
      by (destruct g; vm_compute; reflexivity).
    rewrite forallb_forall in Hall.
    assert (q ∈ (map_to_list (scaffold g)).*1) as Hin.
    { apply list_elem_of_fmap. exists (q, v).
      split; [done|]. by apply elem_of_map_to_list. }
    apply list_elem_of_In, Hall in Hin. by apply bool_decide_eq_true in Hin.
  - intros Hq.
    assert (forallb (λ k, bool_decide (is_Some (scaffold g !! k)))
              (project_entries g) = true) as Hall
      by (destruct g; vm_compute; reflexivity).
    rewrite forallb_forall in Hall.
    apply list_elem_of_In, Hall in Hq. by apply bool_decide_eq_true in Hq.
Qed.

Lemma create_project_structure_outside_aux
    (user_path : path → string → path) (g : git_outcome) (st st1 : state)
    (p k : path) :
  locate_project user_path st = (Ok p, st1) →
  ¬ p `prefix_of` k →
  fs (snd (create_project_structure user_path g st)) !! k = fs st1 !! k.
Proof.
  intros Hloc Hk.
  destruct (create_project_structure user_path g st) as [r st'] eqn:E.
  by apply (create_outside user_path g st st1 st' p r).
Qed.

(** ** Further properties of the script *)

(** X1.  However the choice of the location ends, it leaves the working
    directory where it was, and it changes the file system at most by
    adding directories: whatever existed is still there, unchanged. *)
Theorem locate_project_only_adds_directories
    (user_path : path → string → path) (st : state) :
  let st1 := snd (locate_project user_path st) in
  cwd st1 = cwd st ∧
  ∀ k, fs st1 !! k = fs st !! k ∨ (fs st !! k = None ∧ fs st1 !! k = Some Dir).
Proof.
  cbv zeta. destruct (locate_project user_path st) as [r st1] eqn:E.
  by apply (locate_project_adds user_path st st1 r).
Qed.

(** X2.  Once the project directory is chosen, the run touches nothing
    outside it, however it ends: by a return, a cancellation, or an
    exception at any step. *)
Theorem create_project_structure_stays_inside
    (user_path : path → string → path) (g : git_outcome) (st st1 : state)
    (p k : path) :
  locate_project user_path st = (Ok p, st1) →
  ¬ p `prefix_of` k →
  fs (snd (create_project_structure user_path g st)) !! k = fs st1 !! k.
Proof.
  apply create_project_structure_outside_aux.
Qed.

Lemma create_project_structure_stays_inside_witness :
  ¬ ["home"; project_name] `prefix_of` ["home"] ∧
  fs (snd (create_project_structure no_expansion GitFailed
             (at_home used_fs ["y"; "y"]))) !! ["home"] = Some Dir.
Proof.
  assert (¬ ["home"; project_name] `prefix_of` ["home"]) as Hk
    by (intros [q Hq]; discriminate Hq).
  refine (conj Hk _).
  etrans; [exact (create_project_structure_stays_inside no_expansion GitFailed
                    (at_home used_fs ["y"; "y"]) _ ["home"; project_name]
                    ["home"] eq_refl Hk)|].
  vm_compute. reflexivity.
Defined.

(** X3.  Nothing that exists is lost or changed unless the project
    directory exists and the user answers [y] to the overwrite question:
    in every other run, however it ends, each entry of the file system is
    afterwards what it was. *)
Theorem create_project_structure_no_loss
    (user_path : path → string → path) (g : git_outcome) (st st1 : state)
    (p k : path) (v : node) :
  wf_fs (fs st) →
  locate_project user_path st = (Ok p, st1) →
  ¬ (is_Some (fs st1 !! p) ∧
     ∃ ans rest, stdin st1 = ans :: rest ∧ lower ans = "y") →
  fs st !! k = Some v →
  fs (snd (create_project_structure user_path g st)) !! k = Some v.
Proof.
  intros Hwf Hloc Hno Hk.
  assert (fs st1 !! k = Some v) as Hk1.
  { destruct (locate_project_adds user_path _ _ _ Hloc) as [_ Hadd].
    destruct (Hadd k) as [->|[? _]]; congruence. }
  assert (wf_fs (fs st1)) as Hwf1.
  { destruct (locate_project_inv user_path _ _ _ Hloc)
      as (_ & base' & _ & [->|(_ & Hroot & Hmk)]); [done|].
    by eapply makedirs_wf. }
  destruct (fs st1 !! p) as [x|] eqn:Ep.
  - unfold create_project_structure.
    erewrite bind_run by apply Hloc.
    erewrite bind_run by apply path_exists_run.
    rewrite bool_decide_eq_true_2 by (by rewrite Ep). cbv beta iota.
    destruct st1 as [t1 c1 [|ans rest] o1]; simpl in *; [done|].
    erewrite bind_run by apply input_run.
    rewrite bool_decide_eq_true_2; [done|].
    intros Hy. apply Hno. split; [done|]. by exists ans, rest.
  - rewrite (create_project_structure_outside_aux user_path g st st1 p k Hloc);
      [done|].
    intros [q ->]. by rewrite wf_absent_below in Hk1.
Qed.

Lemma create_project_structure_no_loss_witness :
  wf_fs used_fs ∧
  ¬ (is_Some (used_fs !! ["home"; project_name]) ∧
     ∃ ans rest, ([] : list string) = ans :: rest ∧ lower ans = "y") ∧
  used_fs !! ["home"; project_name; "notes.txt"] = Some (File (Text "keep")) ∧
  fs (snd (create_project_structure no_expansion GitInitialized
             (at_home used_fs ["y"])))
    !! ["home"; project_name; "notes.txt"] = Some (File (Text "keep")).
Proof.
  assert (wf_fs used_fs) as Hwf by exact wf_used_fs.
  assert (¬ (is_Some (used_fs !! ["home"; project_name]) ∧
             ∃ ans rest, ([] : list string) = ans :: rest ∧ lower ans = "y"))
    as Hno by (intros [_ (ans & rest & Hnil & _)]; discriminate Hnil).
  assert (used_fs !! ["home"; project_name; "notes.txt"]
          = Some (File (Text "keep"))) as Hk by (vm_compute; reflexivity).
  refine (conj Hwf (conj Hno (conj Hk _))).
  exact (create_project_structure_no_loss no_expansion GitInitialized
           (at_home used_fs ["y"]) _ ["home"; project_name]
           ["home"; project_name; "notes.txt"] _ Hwf eq_refl Hno Hk).
Defined.

(** X4.  After a run that builds the project, in a fresh place or over a
    directory the user gave up, the process is in the project directory,
    and the directory holds the entries of [project_entries] and no other:
    its five directories and [output], the two placeholders, the nine
    files, and [.git] exactly when [git init] succeeded. *)
Theorem create_project_structure_exact_contents
    (user_path : path → string → path) (g : git_outcome) (st st1 : state)
    (base : path) :
  let p := base ++ [project_name] in
  wf_fs (fs st) →
  locate_project user_path st = (Ok p, st1) →
  fs st1 !! base = Some Dir →
  (fs st1 !! p = None ∨
   (fs st1 !! p = Some Dir ∧
    ∃ ans rest, stdin st1 = ans :: rest ∧ lower ans = "y")) →
  ∃ st',
    create_project_structure user_path g st = (Ok tt, st') ∧
    cwd st' = p ∧
    ∀ q, is_Some (fs st' !! (p ++ q)) ↔ q ∈ project_entries g.
Proof.
  intros p Hwf Hloc Hbase Hcase. subst p.
  assert (wf_fs (fs st1)) as Hwf1.
  { destruct (locate_project_inv user_path _ _ _ Hloc)
      as (_ & base' & _ & [->|(_ & Hroot & Hmk)]); [done|].
    by eapply makedirs_wf. }
  destruct (create_builds user_path g st st1 base Hloc Hwf1 Hbase Hcase)
    as (st' & Hrun & Hfs & Hcwd & _).
  exists st'. split; [done|]. split; [done|]. intros q.
  rewrite Hfs, graft_lookup_under. apply scaffold_entries.
Qed.

Lemma create_project_structure_exact_contents_witness :
  wf_fs home_fs ∧
  home_fs !! ["home"] = Some Dir ∧
  home_fs !! ["home"; project_name] = None ∧
  ∃ st',
    create_project_structure no_expansion GitFailed (at_home home_fs ["y"])
      = (Ok tt, st') ∧
    cwd st' = ["home"; project_name] ∧
    ∀ q, is_Some (fs st' !! (["home"; project_name] ++ q))
         ↔ q ∈ project_entries GitFailed.
Proof.
  assert (wf_fs home_fs) as Hwf by exact wf_home_fs.
  assert (home_fs !! ["home"] = Some Dir) as Hbase by (vm_compute; reflexivity).
  assert (home_fs !! ["home"; project_name] = None) as Hfree
    by (vm_compute; reflexivity).
  refine (conj Hwf (conj Hbase (conj Hfree _))).
  exact (create_project_structure_exact_contents no_expansion GitFailed
           (at_home home_fs ["y"]) _ ["home"] Hwf eq_refl Hbase
           (or_introl Hfree)).
Defined.

(** X5.  When the target exists but is a regular file and the user answers
    [y], [shutil.rmtree] refuses it: the run ends with
    [NotADirectoryError], and the file system and the working directory are
    as they were. *)
Theorem create_project_structure_target_is_file
    (user_path : path → string → path) (g : git_outcome) (st st1 : state)
    (p : path) (c : file_content) (ans : string) (rest : list string) :
  wf_fs (fs st) →
  locate_project user_path st = (Ok p, st1) →
  fs st !! p = Some (File c) →
  stdin st1 = ans :: rest → lower ans = "y" →
  ∃ st',
    create_project_structure user_path g st = (Raise NotADirectoryError, st') ∧
    fs st' = fs st ∧ cwd st' = cwd st.
Proof.
  intros Hwf Hloc Hfile Hin Hans.
  destruct (locate_project_inv user_path _ _ _ Hloc)
    as (Hcwd & base & -> & Hfs).
  assert (fs st1 = fs st) as Hsame.
  { destruct Hfs as [?|(Hnone & _)]; [done|].
    destruct Hwf as [_ Hwf]. rewrite (Hwf base project_name) in Hnone; [done|].
    by rewrite Hfile. }
  unfold create_project_structure.
  erewrite bind_run by apply Hloc.
  erewrite bind_run by apply path_exists_run.
  rewrite bool_decide_eq_true_2 by (by rewrite Hsame, Hfile). cbv beta iota.
  destruct st1 as [t1 c1 i1 o1]; simpl in *. subst.
  erewrite bind_run by apply input_run.
  rewrite Hans. rewrite bool_decide_eq_false_2 by (by intros H).
  cbv beta iota. unfold mbind, M_bind, bind, rmtree; simpl. rewrite Hfile.
  by eexists.
Qed.

Lemma wf_file_fs : wf_fs file_fs.
Proof. apply wf_fsb_correct. vm_compute. reflexivity. Qed.

Lemma create_project_structure_target_is_file_witness :
  wf_fs file_fs ∧
  file_fs !! ["home"; project_name] = Some (File (Text "not a directory")) ∧
  lower "y" = "y" ∧
  ∃ st',
    create_project_structure no_expansion GitInitialized
      (at_home file_fs ["y"; "y"]) = (Raise NotADirectoryError, st') ∧
    fs st' = file_fs ∧ cwd st' = ["home"].
Proof.
  assert (wf_fs file_fs) as Hwf by exact wf_file_fs.
  assert (file_fs !! ["home"; project_name]
          = Some (File (Text "not a directory"))) as Hfile
    by (vm_compute; reflexivity).
  assert (lower "y" = "y") as Hans by reflexivity.
  refine (conj Hwf (conj Hfile (conj Hans _))).
  exact (create_project_structure_target_is_file no_expansion GitInitialized
           (at_home file_fs ["y"; "y"]) _ ["home"; project_name] _ "y" []
           Hwf eq_refl Hfile eq_refl Hans).
Defined.

(** X6.  When the base directory chosen is in fact a regular file, the
    project directory cannot be made in it: the run ends with
    [NotADirectoryError] at [project_dir.mkdir], no question about
    overwriting is asked, and the file system and the working directory
    are as they were. *)
Theorem create_project_structure_base_is_file
    (user_path : path → string → path) (g : git_outcome) (st st1 : state)
    (base : path) (c : file_content) :
  wf_fs (fs st) →
  locate_project user_path st = (Ok (base ++ [project_name]), st1) →
  fs st !! base = Some (File c) →
  ∃ st',
    create_project_structure user_path g st = (Raise NotADirectoryError, st') ∧
    fs st' = fs st ∧ cwd st' = cwd st ∧ stdin st' = stdin st1.
Proof.
  intros Hwf Hloc Hfile.
  destruct (locate_project_inv user_path _ _ _ Hloc)
    as (Hcwd & base' & Hp & Hfs).
  apply app_inj_tail in Hp as [<- _].
  assert (fs st1 = fs st) as Hsame.
  { destruct Hfs as [?|(Hnone & _)]; [done|congruence]. }
  assert (fs st !! (base ++ [project_name]) = None) as Hfree.
  { destruct (fs st !! (base ++ [project_name])) eqn:E; [|done].
    destruct Hwf as [_ Hwf]. rewrite (Hwf base project_name) in Hfile; [done|].
    by rewrite E. }
  unfold create_project_structure.
  erewrite bind_run by apply Hloc.
  erewrite bind_run by apply path_exists_run.
  rewrite bool_decide_eq_false_2
    by (rewrite Hsame, Hfree; by intros [? ?]).
  cbv beta iota. unfold build.
  destruct st1 as [t1 c1 i1 o1]; simpl in *. subst.
  erewrite bind_run by apply print_run.
  unfold mbind, M_bind, bind, mkdir_exist_ok, try_except, os_mkdir; simpl.
  rewrite Hfree. unfold parent. rewrite removelast_last, Hfile.
  unfold path_error. rewrite (blocked_file _ [] base c Hfile).
  cbn [fs]. rewrite Hfree. by eexists.
Qed.

Lemma create_project_structure_base_is_file_witness :
  wf_fs file_fs ∧
  file_fs !! ["home"; project_name] = Some (File (Text "not a directory")) ∧
  ∃ st',
    create_project_structure (chosen ["home"; project_name]) GitInitialized
      (at_home file_fs ["n"; "there"])
    = (Raise NotADirectoryError, st') ∧
    fs st' = file_fs ∧ cwd st' = ["home"] ∧ stdin st' = [].
Proof.
  assert (wf_fs file_fs) as Hwf by exact wf_file_fs.
  assert (file_fs !! ["home"; project_name]
          = Some (File (Text "not a directory"))) as Hfile
    by (vm_compute; reflexivity).
  refine (conj Hwf (conj Hfile _)).
  exact (create_project_structure_base_is_file
           (chosen ["home"; project_name]) GitInitialized
           (at_home file_fs ["n"; "there"]) _
           ["home"; project_name] _ Hwf eq_refl Hfile).
Defined.

Lemma strip_blank (s : string) : blank s = true → strip s = "".
Proof.
  unfold strip. induction s as [|c s IH]; simpl; [done|].
  intros [Hc Hs]%andb_prop. rewrite Hc. by apply IH.
Qed.

(** X7.  When the user declines the default location and then types
    nothing, or only white space, the project goes to the current
    directory after all: the platform is not consulted and nothing is
    created while locating. *)
Theorem locate_project_blank_path
    (user_path : path → string → path) (st : state)
    (r text : string) (rest : list string) :
  stdin st = r :: text :: rest → lower r ≠ "y" → blank text = true →
  ∃ out,
    locate_project user_path st
    = (Ok (cwd st ++ [project_name]),
       State (fs st) (cwd st) rest (stdout st ++ out)).
Proof.
  destruct st as [t c i o]; simpl. intros -> Hr Hb. unfold locate_project.
  erewrite bind_run by reflexivity.
  erewrite bind_run by apply print_run.
  erewrite bind_run by apply input_run.
  rewrite bool_decide_eq_true_2 by done. cbv beta iota.
  erewrite bind_run; cycle 1.
  { erewrite bind_run by apply input_run.
    rewrite (strip_blank _ Hb). rewrite bool_decide_eq_false_2 by (by intros H).
    reflexivity. }
  unfold mret, M_ret, ret. rewrite <- !app_assoc. by eexists.
Qed.

Lemma locate_project_blank_path_witness :
  lower "no" ≠ "y" ∧ blank "   " = true ∧
  ∃ out,
    locate_project (chosen ["elsewhere"]) (at_home home_fs ["no"; "   "; "y"])
    = (Ok (["home"] ++ [project_name]),
       State home_fs ["home"] ["y"] ([] ++ out)).
Proof.
  assert (lower "no" ≠ "y") as Hr by (vm_compute; discriminate).
  assert (blank "   " = true) as Hb by reflexivity.
  refine (conj Hr (conj Hb _)).
  exact (locate_project_blank_path (chosen ["elsewhere"])
           (at_home home_fs ["no"; "   "; "y"]) "no" "   " ["y"]
           eq_refl Hr Hb).
Defined.

Section CustomLocation.

Variable user_path : path → string → path.


End CustomLocation.




Lemma remove_tree_graft (p : path) (sub t : filesystem) :
  remove_tree p (graft p sub t) = remove_tree p t.
Proof.
  apply map_eq. intros k.
  destruct (decide (p `prefix_of` k)) as [[q ->]|Hk].
  - by rewrite !remove_tree_lookup_under.
  - rewrite !remove_tree_lookup_outside by done.
    by apply graft_lookup_outside.
Qed.

Lemma graft_graft (p : path) (a b t : filesystem) :
  graft p a (graft p b t) = graft p a t.
Proof. unfold graft at 1 3. by rewrite remove_tree_graft. Qed.

Lemma wf_graft (t sub : filesystem) (base : path) (c : string) :
  wf_fs t → t !! base = Some Dir → wf_fs sub →
  wf_fs (graft (base ++ [c]) sub t).
Proof.
  intros [Hroot Hwf] Hbase [Hsroot Hswf]. split.
  - rewrite graft_lookup_outside; [done|]. intros [q Hq]. by destruct base.
  - intros q x Hex.
    destruct (decide ((base ++ [c]) `prefix_of` q ++ [x])) as [[r Hr]|Hout].
    + destruct r as [|y r _] using rev_ind.
      * rewrite app_nil_r in Hr. apply app_inj_tail in Hr as [-> _].
        rewrite graft_lookup_outside by apply prefix_snoc_not. done.
      * rewrite app_assoc in Hr. apply app_inj_tail in Hr as [-> ->].
        rewrite graft_lookup_under. apply (Hswf r y).
        by rewrite <- app_assoc, graft_lookup_under in Hex.
    + rewrite graft_lookup_outside in Hex by done.
      rewrite graft_lookup_outside; [by apply (Hwf q x)|].
      intros Hq. apply Hout. by apply prefix_app_r.
Qed.

Lemma wf_scaffold (g : git_outcome) : wf_fs (scaffold g).
Proof. apply wf_fsb_correct. destruct g; vm_compute; reflexivity. Qed.

(** X9.  A run that builds the project leaves the file system a tree:
    every entry lies in a directory. *)
Theorem create_project_structure_keeps_tree
    (user_path : path → string → path) (g : git_outcome) (st st1 : state)
    (base : path) :
  let p := base ++ [project_name] in
  wf_fs (fs st) →
  locate_project user_path st = (Ok p, st1) →
  fs st1 !! base = Some Dir →
  (fs st1 !! p = None ∨
   (fs st1 !! p = Some Dir ∧
    ∃ ans rest, stdin st1 = ans :: rest ∧ lower ans = "y")) →
  ∃ st',
    create_project_structure user_path g st = (Ok tt, st') ∧ wf_fs (fs st').
Proof.
  intros p Hwf Hloc Hbase Hcase. subst p.
  assert (wf_fs (fs st1)) as Hwf1.
  { destruct (locate_project_inv user_path _ _ _ Hloc)
      as (_ & base' & _ & [->|(_ & Hroot & Hmk)]); [done|].
    by eapply makedirs_wf. }
  destruct (create_builds user_path g st st1 base Hloc Hwf1 Hbase Hcase)
    as (st' & Hrun & Hfs & _).
  exists st'. split; [done|]. rewrite Hfs.
  apply wf_graft; [done..|apply wf_scaffold].
Qed.

Lemma create_project_structure_keeps_tree_witness :
  wf_fs used_fs ∧
  used_fs !! ["home"] = Some Dir ∧
  used_fs !! ["home"; project_name] = Some Dir ∧
  lower "Y" = "y" ∧
  ∃ st',
    create_project_structure no_expansion GitMissing
      (at_home used_fs ["y"; "Y"]) = (Ok tt, st') ∧ wf_fs (fs st').
Proof.
  assert (wf_fs used_fs) as Hwf by exact wf_used_fs.
  assert (used_fs !! ["home"] = Some Dir) as Hbase by (vm_compute; reflexivity).
  assert (used_fs !! ["home"; project_name] = Some Dir) as Hdir
    by (vm_compute; reflexivity).
  assert (lower "Y" = "y") as Hans by reflexivity.
  refine (conj Hwf (conj Hbase (conj Hdir (conj Hans _)))).
  exact (create_project_structure_keeps_tree no_expansion GitMissing
           (at_home used_fs ["y"; "Y"]) _ ["home"] Hwf eq_refl Hbase
           (or_intror (conj Hdir (ex_intro _ "Y" (ex_intro _ [] (conj eq_refl Hans)))))).
Defined.

(** X10.  Building again over a project that a run has built gives the
    same file system: after a run that built the project in the default
    location, a second run from the same directory with the same [git]
    outcome, in which the user confirms the location and the overwrite,
    returns and leaves every entry as the first run left it. *)
Theorem create_project_structure_rebuild
    (user_path : path → string → path) (g : git_outcome) (st : state)
    (r : string) (rest : list string) :
  let p := cwd st ++ [project_name] in
  wf_fs (fs st) → fs st !! cwd st = Some Dir →
  stdin st = r :: rest → lower r = "y" →
  (fs st !! p = None ∨
   (fs st !! p = Some Dir ∧ ∃ a rest', rest = a :: rest' ∧ lower a = "y")) →
  ∃ st',
    create_project_structure user_path g st = (Ok tt, st') ∧
    ∀ r1 r2 rest2 out2, lower r1 = "y" → lower r2 = "y" →
      ∃ st'',
        create_project_structure user_path g
          (State (fs st') (cwd st) (r1 :: r2 :: rest2) out2) = (Ok tt, st'') ∧
        fs st'' = fs st'.
Proof.
  intros p Hwf Hcwd Hin Hr Hcase. subst p.
  destruct (locate_project_default user_path st r rest Hin Hr) as (out & Hloc).
  destruct (create_builds user_path g st _ (cwd st) Hloc)
    as (st' & Hrun & Hfs & _); [done..|].
  simpl in Hfs. exists st'. split; [done|].
  intros r1 r2 rest2 out2 Hr1 Hr2.
  set (st2 := State (fs st') (cwd st) (r1 :: r2 :: rest2) out2).
  destruct (locate_project_default user_path st2 r1 (r2 :: rest2) eq_refl Hr1)
    as (out' & Hloc2).
  assert (fs st' !! cwd st = Some Dir) as Hcwd'.
  { rewrite Hfs, graft_lookup_outside by apply prefix_snoc_not. done. }
  assert (wf_fs (fs st')) as Hwf'.
  { rewrite Hfs. apply wf_graft; [done..|apply wf_scaffold]. }
  destruct (create_builds user_path g st2 _ (cwd st) Hloc2)
    as (st'' & Hrun2 & Hfs2 & _); [done..| |].
  { right. unfold st2. cbn [fs stdin cwd]. split.
    - rewrite Hfs, graft_lookup_root. apply scaffold_root.
    - exists r2, rest2. split; [reflexivity|exact Hr2]. }
  exists st''. split; [done|]. simpl in Hfs2.
  by rewrite Hfs2, Hfs, graft_graft.
Qed.

Lemma create_project_structure_rebuild_witness :
  wf_fs home_fs ∧
  home_fs !! ["home"] = Some Dir ∧
  lower "y" = "y" ∧
  home_fs !! ["home"; project_name] = None ∧
  ∃ st',
    create_project_structure no_expansion GitInitialized
      (at_home home_fs ["y"]) = (Ok tt, st') ∧
    ∀ r1 r2 rest2 out2, lower r1 = "y" → lower r2 = "y" →
      ∃ st'',
        create_project_structure no_expansion GitInitialized
          (State (fs st') ["home"] (r1 :: r2 :: rest2) out2) = (Ok tt, st'') ∧
        fs st'' = fs st'.
Proof.
  assert (wf_fs home_fs) as Hwf by exact wf_home_fs.
  assert (home_fs !! ["home"] = Some Dir) as Hcwd by (vm_compute; reflexivity).
  assert (lower "y" = "y") as Hr by reflexivity.
  assert (home_fs !! ["home"; project_name] = None) as Hfree
    by (vm_compute; reflexivity).
  refine (conj Hwf (conj Hcwd (conj Hr (conj Hfree _)))).
  exact (create_project_structure_rebuild no_expansion GitInitialized
           (at_home home_fs ["y"]) "y" [] Hwf Hcwd eq_refl Hr
           (or_introl Hfree)).
Defined.

(** ** The functions that write the files, on their own *)

Lemma write_file_run (f : path) (content : file_content) (s : state) :
  fs s !! f ≠ Some Dir → fs s !! parent f = Some Dir →
  write_file f content s
  = (Ok tt, State (<[f := File content]> (fs s)) (cwd s) (stdin s) (stdout s)).
Proof.
  intros Hf Hp. unfold write_file.
  destruct (fs s !! f) as [[|?]|]; [done|done|]. by rewrite Hp.
Qed.

Lemma write_file_no_directory (c : path) (d name : string)
    (content : file_content) (s : state) :
  wf_fs (fs s) → fs s !! c = Some Dir → fs s !! (c ++ [d]) = None →
  write_file (c ++ [d; name]) content s = (Raise FileNotFoundError, s).
Proof.
  intros Hwf Hc Hd. unfold write_file.
  replace (c ++ [d; name]) with ((c ++ [d]) ++ [name])
    by by rewrite <- app_assoc.
  rewrite (wf_absent_below _ _ [name] Hwf Hd).
  unfold parent. rewrite removelast_last, Hd.
  unfold path_error. by rewrite blocked_below_dir.
Qed.

Lemma here_run (name : string) (s : state) :
  here name s = (Ok (cwd s ++ components name), s).
Proof. reflexivity. Qed.

(** X11.  [create_vscode_config] and [create_sample_data_structure] count
    on their directory being there: run in a working directory without
    [.vscode], respectively without [data], each raises
    [FileNotFoundError] at its first file, and writes and prints
    nothing. *)
Theorem writers_need_their_directory (s : state) :
  wf_fs (fs s) → fs s !! cwd s = Some Dir →
  (fs s !! (cwd s ++ [".vscode"]) = None →
   create_vscode_config s = (Raise FileNotFoundError, s)) ∧
  (fs s !! (cwd s ++ ["data"]) = None →
   create_sample_data_structure s = (Raise FileNotFoundError, s)).
Proof.
  intros Hwf Hcwd. split; intros Hd.
  - unfold create_vscode_config. erewrite bind_run by apply here_run.
    unfold mbind, M_bind, bind.
    change (components ".vscode/settings.json")
      with [".vscode"; "settings.json"].
    by rewrite (write_file_no_directory _ _ _ _ _ Hwf Hcwd Hd).
  - unfold create_sample_data_structure. erewrite bind_run by apply here_run.
    unfold mbind, M_bind, bind.
    change (components "data/syllabus_topics.json")
      with ["data"; "syllabus_topics.json"].
    by rewrite (write_file_no_directory _ _ _ _ _ Hwf Hcwd Hd).
Qed.

Lemma writers_need_their_directory_witness :
  wf_fs home_fs ∧ home_fs !! ["home"] = Some Dir ∧
  home_fs !! ["home"; ".vscode"] = None ∧
  home_fs !! ["home"; "data"] = None ∧
  create_vscode_config (at_home home_fs [])
  = (Raise FileNotFoundError, at_home home_fs []) ∧
  create_sample_data_structure (at_home home_fs [])
  = (Raise FileNotFoundError, at_home home_fs []).
Proof.
  assert (wf_fs home_fs) as Hwf by exact wf_home_fs.
  assert (home_fs !! ["home"] = Some Dir) as Hcwd by (vm_compute; reflexivity).
  assert (home_fs !! ["home"; ".vscode"] = None) as Hv
    by (vm_compute; reflexivity).
  assert (home_fs !! ["home"; "data"] = None) as Hd
    by (vm_compute; reflexivity).
  refine (conj Hwf (conj Hcwd (conj Hv (conj Hd _)))).
  destruct (writers_need_their_directory (at_home home_fs []) Hwf Hcwd)
    as [Hvs Hds].
  exact (conj (Hvs Hv) (Hds Hd)).
Defined.


Lemma parent_in_subdirectory (c : path) (d a : string) :
  parent (c ++ [d; a]) = c ++ [d].
Proof.
  unfold parent.
  replace (c ++ [d; a]) with ((c ++ [d]) ++ [a]) by by rewrite <- app_assoc.
  apply removelast_last.
Qed.

Lemma write_here_run (name : string) (content : file_content) (msg : message)
    t c i o :
  t !! (c ++ components name) ≠ Some Dir →
  t !! parent (c ++ components name) = Some Dir →
  (f ← here name; write_file f content;; print msg) (State t c i o)
  = (Ok tt, State (<[c ++ components name := File content]> t) c i (o ++ [msg])).
Proof.
  intros Hf Hp.
  erewrite bind_run by apply here_run. cbn [cwd].
  erewrite bind_run by (apply write_file_run; cbn [fs]; done).
  cbn [fs cwd stdin stdout]. apply print_run.
Qed.

(** X12.  In a working directory that has a [data] directory in which
    none of the four names is taken by a directory,
    [create_sample_data_structure] returns: the syllabus and the three CSV
    files hold their templates, whatever files of these names held before,
    and every other entry of the file system is as it was. *)
Theorem create_sample_data_structure_writes (s : state) :
  let files := ("data/syllabus_topics.json", JsonDump syllabus 4)
               :: map (λ f, (f.1, Text f.2)) csv_templates in
  fs s !! (cwd s ++ ["data"]) = Some Dir →
  Forall (λ f, fs s !! (cwd s ++ components f.1) ≠ Some Dir) files →
  ∃ s',
    create_sample_data_structure s = (Ok tt, s') ∧
    cwd s' = cwd s ∧
    Forall (λ f, fs s' !! (cwd s ++ components f.1) = Some (File f.2)) files ∧
    ∀ k, Forall (λ f, k ≠ cwd s ++ components f.1) files →
         fs s' !! k = fs s !! k.
Proof.
  intros files Hdata Hfree. subst files.
  destruct s as [t c i o]. cbn [fs cwd] in *.
  cbn [map csv_templates fst snd] in *.
  apply Forall_cons in Hfree as [H1 Hfree].
  apply Forall_cons in Hfree as [H2 Hfree].
  apply Forall_cons in Hfree as [H3 Hfree].
  apply Forall_cons in Hfree as [H4 _].
  cbn [fst snd] in H1, H2, H3, H4.
  assert (∀ a b : string, a ≠ b → c ++ ["data"; a] ≠ c ++ ["data"; b]) as Hne
    by (intros a b Hab Heq%app_inv_head; congruence).
  change (components "data/syllabus_topics.json")
    with ["data"; "syllabus_topics.json"] in *.
  change (components "data/sample_mcq_results.csv")
    with ["data"; "sample_mcq_results.csv"] in *.
  change (components "data/sample_assignments.csv")
    with ["data"; "sample_assignments.csv"] in *.
  change (components "data/sample_participation.csv")
    with ["data"; "sample_participation.csv"] in *.
  unfold create_sample_data_structure.
  erewrite bind_run by apply here_run. cbn [cwd].
  change (components "data/syllabus_topics.json")
    with ["data"; "syllabus_topics.json"].
  erewrite bind_run
    by (apply write_file_run; cbn [fs]; [exact H1|by rewrite parent_in_subdirectory]).
  cbn [fs cwd stdin stdout].
  erewrite bind_run by apply print_run.
  cbn [for_each csv_templates].
  erewrite bind_run; cycle 1.
  { apply write_here_run;
      change (components "data/sample_mcq_results.csv")
        with ["data"; "sample_mcq_results.csv"].
    - rewrite lookup_insert_ne by (by apply Hne). exact H2.
    - rewrite parent_in_subdirectory.
      rewrite lookup_insert_ne; [done|]. intros Heq%app_inv_head. done. }
  erewrite bind_run; cycle 1.
  { apply write_here_run;
      change (components "data/sample_assignments.csv")
        with ["data"; "sample_assignments.csv"].
    - rewrite !lookup_insert_ne by (by apply Hne). exact H3.
    - rewrite parent_in_subdirectory.
      rewrite !lookup_insert_ne; [done|intros Heq%app_inv_head; done..]. }
  erewrite bind_run; cycle 1.
  { apply write_here_run;
      change (components "data/sample_participation.csv")
        with ["data"; "sample_participation.csv"].
    - rewrite !lookup_insert_ne by (by apply Hne). exact H4.
    - rewrite parent_in_subdirectory.
      rewrite !lookup_insert_ne; [done|intros Heq%app_inv_head; done..]. }
  change (components "data/sample_mcq_results.csv")
    with ["data"; "sample_mcq_results.csv"].
  change (components "data/sample_assignments.csv")
    with ["data"; "sample_assignments.csv"].
  change (components "data/sample_participation.csv")
    with ["data"; "sample_participation.csv"].
  eexists. split; [reflexivity|]. cbn [fs cwd]. split; [done|]. split.
  - repeat apply Forall_cons_2; [..|apply Forall_nil_2]; cbn [fst snd];
      rewrite ?lookup_insert_ne by (by apply Hne); apply lookup_insert_eq.
  - intros k Hk.
    apply Forall_cons in Hk as [K1 Hk]. apply Forall_cons in Hk as [K2 Hk].
    apply Forall_cons in Hk as [K3 Hk]. apply Forall_cons in Hk as [K4 _].
    cbn [fst snd] in K1, K2, K3, K4.
    by rewrite !lookup_insert_ne by done.
Qed.

Lemma create_sample_data_structure_writes_witness :
  let s := State data_fs ["home"] [] [] in
  let files := ("data/syllabus_topics.json", JsonDump syllabus 4)
               :: map (λ f, (f.1, Text f.2)) csv_templates in
  data_fs !! (["home"] ++ ["data"]) = Some Dir ∧
  Forall (λ f, data_fs !! (["home"] ++ components f.1) ≠ Some Dir) files ∧
  data_fs !! ["home"; "data"; "sample_assignments.csv"]
    = Some (File (Text "old marks")) ∧
  ∃ s',
    create_sample_data_structure s = (Ok tt, s') ∧
    cwd s' = ["home"] ∧
    Forall (λ f, fs s' !! (["home"] ++ components f.1) = Some (File f.2)) files ∧
    ∀ k, Forall (λ f, k ≠ ["home"] ++ components f.1) files →
         fs s' !! k = data_fs !! k.
Proof.
  cbv zeta.
  assert (data_fs !! (["home"] ++ ["data"]) = Some Dir) as Hdata
    by (vm_compute; reflexivity).
  assert (Forall (λ f, data_fs !! (["home"] ++ components f.1) ≠ Some Dir)
            (("data/syllabus_topics.json", JsonDump syllabus 4)
             :: map (λ f, (f.1, Text f.2)) csv_templates)) as Hfree
    by (repeat constructor; vm_compute; intros H; discriminate H).
  assert (data_fs !! ["home"; "data"; "sample_assignments.csv"]
          = Some (File (Text "old marks"))) as Hold
    by (vm_compute; reflexivity).
  refine (conj Hdata (conj Hfree (conj Hold _))).
  exact (create_sample_data_structure_writes (State data_fs ["home"] [] [])
           Hdata Hfree).
Defined.

(** X13.  In a working directory that has a [.vscode] directory in which
    neither name is taken by a directory, [create_vscode_config] returns:
    [settings.json] and [launch.json] hold the two configurations,
    whatever they held before, and every other entry of the file system is
    as it was. *)
Theorem create_vscode_config_writes (s : state) :
  let files := [ (".vscode/settings.json", JsonDump settings 4);
                 (".vscode/launch.json", JsonDump launch 4) ] in
  fs s !! (cwd s ++ [".vscode"]) = Some Dir →
  Forall (λ f, fs s !! (cwd s ++ components f.1) ≠ Some Dir) files →
  ∃ s',
    create_vscode_config s = (Ok tt, s') ∧
    cwd s' = cwd s ∧
    Forall (λ f, fs s' !! (cwd s ++ components f.1) = Some (File f.2)) files ∧
    ∀ k, Forall (λ f, k ≠ cwd s ++ components f.1) files →
         fs s' !! k = fs s !! k.
Proof.
  intros files Hdir Hfree. subst files.
  destruct s as [t c i o]. cbn [fs cwd] in *.
  apply Forall_cons in Hfree as [H1 Hfree].
  apply Forall_cons in Hfree as [H2 _].
  cbn [fst snd] in H1, H2.
  change (components ".vscode/settings.json")
    with [".vscode"; "settings.json"] in *.
  change (components ".vscode/launch.json")
    with [".vscode"; "launch.json"] in *.
  assert (c ++ [".vscode"; "settings.json"] ≠ c ++ [".vscode"; "launch.json"])
    as Hne by (intros Heq%app_inv_head; congruence).
  unfold create_vscode_config.
  erewrite bind_run by apply here_run. cbn [cwd].
  change (components ".vscode/settings.json")
    with [".vscode"; "settings.json"].
  erewrite bind_run
    by (apply write_file_run; cbn [fs];
        [exact H1|by rewrite parent_in_subdirectory]).
  cbn [fs cwd stdin stdout].
  erewrite bind_run by apply print_run.
  rewrite write_here_run; cycle 1.
  { change (components ".vscode/launch.json") with [".vscode"; "launch.json"].
    rewrite lookup_insert_ne by done. exact H2. }
  { change (components ".vscode/launch.json") with [".vscode"; "launch.json"].
    rewrite parent_in_subdirectory.
    rewrite lookup_insert_ne; [done|]. intros Heq%app_inv_head. done. }
  change (components ".vscode/launch.json") with [".vscode"; "launch.json"].
  eexists. split; [reflexivity|]. cbn [fs cwd]. split; [done|]. split.
  - repeat apply Forall_cons_2; [..|apply Forall_nil_2]; cbn [fst snd];
      rewrite ?lookup_insert_ne by done; apply lookup_insert_eq.
  - intros k Hk.
    apply Forall_cons in Hk as [K1 Hk]. apply Forall_cons in Hk as [K2 _].
    cbn [fst snd] in K1, K2.
    by rewrite !lookup_insert_ne by done.
Qed.

Lemma create_vscode_config_writes_witness :
  let s := State editor_fs ["home"] [] [] in
  let files := [ (".vscode/settings.json", JsonDump settings 4);
                 (".vscode/launch.json", JsonDump launch 4) ] in
  editor_fs !! (["home"] ++ [".vscode"]) = Some Dir ∧
  Forall (λ f, editor_fs !! (["home"] ++ components f.1) ≠ Some Dir) files ∧
  ∃ s',
    create_vscode_config s = (Ok tt, s') ∧
    cwd s' = ["home"] ∧
    Forall (λ f, fs s' !! (["home"] ++ components f.1) = Some (File f.2)) files ∧
    ∀ k, Forall (λ f, k ≠ ["home"] ++ components f.1) files →
         fs s' !! k = editor_fs !! k.
Proof.
  cbv zeta.
  assert (editor_fs !! (["home"] ++ [".vscode"]) = Some Dir) as Hdir
    by (vm_compute; reflexivity).
  assert (Forall (λ f, editor_fs !! (["home"] ++ components f.1) ≠ Some Dir)
            [ (".vscode/settings.json", JsonDump settings 4);
              (".vscode/launch.json", JsonDump launch 4) ]) as Hfree
    by (repeat constructor; vm_compute; intros H; discriminate H).
  refine (conj Hdir (conj Hfree _)).
  exact (create_vscode_config_writes (State editor_fs ["home"] [] [])
           Hdir Hfree).
Defined.

(** ** Ends of the input, and what a return means *)

Lemma input_eof (m : message) t c o :
  input m (State t c [] o) = (Raise EOFError, State t c [] (o ++ [m])).
Proof. reflexivity. Qed.

Lemma bind_raise {A B} (m : M A) (k : A → M B) s e s1 :
  m s = (Raise e, s1) → (m ≫= k) s = (Raise e, s1).
Proof. intros H. unfold mbind, M_bind, bind. by rewrite H. Qed.

Lemma create_project_structure_input_ends_aux
    (user_path : path → string → path) (g : git_outcome) (st : state)
    (p : path) (st1 : state) :
  locate_project user_path st = (Ok p, st1) →
  is_Some (fs st1 !! p) → stdin st1 = [] →
  ∃ st', create_project_structure user_path g st = (Raise EOFError, st') ∧
         fs st' = fs st1 ∧ cwd st' = cwd st.
Proof.
  intros Hloc Hex Hin.
  destruct (locate_project_adds user_path _ _ _ Hloc) as [Hcwd _].
  destruct st1 as [t1 c1 i1 o1]; simpl in *. subst.
  unfold create_project_structure.
  erewrite bind_run by apply Hloc.
  erewrite bind_run by apply path_exists_run.
  rewrite bool_decide_eq_true_2 by done. cbv beta iota.
  eexists. split; [apply bind_raise, input_eof|done].
Qed.

(** X14.  When the input ends before a question is answered, the run ends
    with [EOFError] and has changed nothing in the file system: at the
    first question, at the question for a path, and at the question about
    overwriting. *)
Theorem create_project_structure_input_ends
    (user_path : path → string → path) (g : git_outcome) (st : state) :
  (stdin st = [] →
   ∃ st', create_project_structure user_path g st = (Raise EOFError, st') ∧
          fs st' = fs st ∧ cwd st' = cwd st) ∧
  (∀ r, stdin st = [r] → lower r ≠ "y" →
   ∃ st', create_project_structure user_path g st = (Raise EOFError, st') ∧
          fs st' = fs st ∧ cwd st' = cwd st) ∧
  (∀ p st1, locate_project user_path st = (Ok p, st1) →
   is_Some (fs st1 !! p) → stdin st1 = [] →
   ∃ st', create_project_structure user_path g st = (Raise EOFError, st') ∧
          fs st' = fs st1 ∧ cwd st' = cwd st).
Proof.
  split; [|split].
  - destruct st as [t c i o]; simpl. intros ->.
    unfold create_project_structure, locate_project.
    eexists. split.
    { apply bind_raise.
      erewrite bind_run by reflexivity.
      erewrite bind_run by apply print_run.
      apply bind_raise. apply input_eof. }
    by split.
  - destruct st as [t c i o]; simpl. intros r -> Hr.
    unfold create_project_structure, locate_project.
    eexists. split.
    { apply bind_raise.
      erewrite bind_run by reflexivity.
      erewrite bind_run by apply print_run.
      erewrite bind_run by apply input_run.
      rewrite bool_decide_eq_true_2 by done. cbv beta iota.
      do 2 apply bind_raise. apply input_eof. }
    by split.
  - intros p st1. apply create_project_structure_input_ends_aux.
Qed.

Lemma build_needs_base (base : path) (g : git_outcome) (s : state) :
  fs s !! (base ++ [project_name]) = None → fs s !! base ≠ Some Dir →
  ∃ e s', build (base ++ [project_name]) g s = (Raise e, s').
Proof.
  intros Hfree Hbase. destruct s as [t c i o]; simpl in *. unfold build.
  erewrite bind_run by apply print_run.
  assert (∃ e s', mkdir_exist_ok (base ++ [project_name])
                    (State t c i (o ++ [SayPath "
Creating project directory: " (base ++ [project_name]) ""]))
                  = (Raise e, s')) as (e & s' & Hmk).
  { unfold mkdir_exist_ok, try_except, os_mkdir. cbn [fs].
    rewrite Hfree. unfold parent. rewrite removelast_last.
    destruct (t !! base) as [[|?]|]; [done|..];
      destruct (path_error t base); cbn [fs]; rewrite ?Hfree; by eauto. }
  exists e, s'. by apply bind_raise.
Qed.

(** X15.  A return means all or nothing: whenever
    [create_project_structure] returns normally, either the project was
    cancelled, the target exists and the file system is untouched, or the
    project is complete: the process is in the project directory, which
    holds the whole scaffold and nothing else. *)
Theorem create_project_structure_all_or_nothing
    (user_path : path → string → path) (g : git_outcome) (st st1 st' : state)
    (p : path) :
  wf_fs (fs st) →
  locate_project user_path st = (Ok p, st1) →
  create_project_structure user_path g st = (Ok tt, st') →
  (is_Some (fs st1 !! p) ∧ fs st' = fs st1 ∧ cwd st' = cwd st) ∨
  (cwd st' = p ∧ fs st' = graft p (scaffold g) (fs st1)).
Proof.
  intros Hwf Hloc Hrun.
  assert (wf_fs (fs st1)) as Hwf1.
  { destruct (locate_project_inv user_path _ _ _ Hloc)
      as (_ & base' & _ & [->|(_ & Hroot & Hmk)]); [done|].
    by eapply makedirs_wf. }
  destruct (locate_project_inv user_path _ _ _ Hloc) as (Hcwd & base & -> & _).
  destruct (fs st1 !! (base ++ [project_name])) as [x|] eqn:Ep.
  - assert (fs st1 !! base = Some Dir) as Hbase
      by (apply (proj2 Hwf1 base project_name); by rewrite Ep).
    destruct (stdin st1) as [|ans rest] eqn:Hin.
    { destruct (create_project_structure_input_ends_aux user_path g st
                  _ st1 Hloc) as (st2 & Hr & _); [by rewrite Ep|done|].
      congruence. }
    destruct (decide (lower ans = "y")) as [Hy|Hn].
    + destruct x as [|c].
      * right.
        destruct (create_builds user_path g st st1 base Hloc Hwf1 Hbase)
          as (st2 & Hr & Hfs & Hc & _).
        { right. split; [done|]. by exists ans, rest. }
        rewrite Hr in Hrun. injection Hrun as <-. by split.
      * exfalso. revert Hrun. unfold create_project_structure.
        erewrite bind_run by apply Hloc.
        erewrite bind_run by apply path_exists_run.
        rewrite bool_decide_eq_true_2 by (by rewrite Ep). cbv beta iota.
        destruct st1 as [t1 c1 i1 o1]; simpl in *. subst.
        erewrite bind_run by apply input_run.
        rewrite Hy. rewrite bool_decide_eq_false_2 by (by intros H).
        cbv beta iota. unfold mbind, M_bind, bind, rmtree; simpl.
        by rewrite Ep.
    + left. split; [done|]. revert Hrun. unfold create_project_structure.
      erewrite bind_run by apply Hloc.
      erewrite bind_run by apply path_exists_run.
      rewrite bool_decide_eq_true_2 by (by rewrite Ep). cbv beta iota.
      destruct st1 as [t1 c1 i1 o1]; simpl in *. subst.
      erewrite bind_run by apply input_run.
      rewrite bool_decide_eq_true_2 by done. cbv beta iota.
      rewrite print_run. by intros [= <-].
  - right.
    assert (fs st1 !! base = Some Dir ∨ fs st1 !! base ≠ Some Dir)
      as [Hbase|Hbase] by (destruct (fs st1 !! base) as [[|?]|]; auto).
    + destruct (create_builds user_path g st st1 base Hloc Hwf1 Hbase)
        as (st2 & Hr & Hfs & Hc & _); [by left|].
      rewrite Hr in Hrun. injection Hrun as <-. by split.
    + exfalso. revert Hrun. unfold create_project_structure.
      erewrite bind_run by apply Hloc.
      erewrite bind_run by apply path_exists_run.
      rewrite bool_decide_eq_false_2 by (rewrite Ep; by intros [? ?]).
      cbv beta iota.
      destruct (build_needs_base base g st1 Ep Hbase) as (e & s' & ->). done.
Qed.

Lemma create_project_structure_all_or_nothing_witness :
  let st := at_home home_fs ["y"] in
  let p := ["home"; project_name] in
  let st' := snd (create_project_structure no_expansion GitFailed st) in
  wf_fs home_fs ∧
  create_project_structure no_expansion GitFailed st = (Ok tt, st') ∧
  ((is_Some (home_fs !! p) ∧ fs st' = home_fs ∧ cwd st' = ["home"]) ∨
   (cwd st' = p ∧ fs st' = graft p (scaffold GitFailed) home_fs)).
Proof.
  cbv zeta.
  assert (wf_fs home_fs) as Hwf by exact wf_home_fs.
  assert (create_project_structure no_expansion GitFailed
            (at_home home_fs ["y"])
          = (Ok tt, snd (create_project_structure no_expansion GitFailed
                           (at_home home_fs ["y"])))) as Hrun.
  { rewrite (surjective_pairing
               (create_project_structure no_expansion GitFailed
                  (at_home home_fs ["y"]))) at 1.
    f_equal; vm_compute; reflexivity. }
  refine (conj Hwf (conj Hrun _)).
  exact (create_project_structure_all_or_nothing no_expansion GitFailed
           (at_home home_fs ["y"]) _ _ ["home"; project_name]
           Hwf eq_refl Hrun).
Defined.
